(** * MultiAxisViewBox: zoom history and event propagation

  A shallow embedding of [pydm/widgets/multi_axis_viewbox.py].

  The widget is a Python object whose methods mutate two lists
  ([undoStack], [redoStack]) and two attributes inherited from pyqtgraph's
  [ViewBox] ([axHistory], [axHistoryPointer]), emit Qt signals and call
  into the base class.  Methods are embedded as computations in a small
  monad that threads the widget, records every signal emission and every
  framework call in order, and carries Python exceptions: an exception
  aborts the rest of the method but keeps the mutations and the effects
  that happened before it, as in Python. *)

From Stdlib Require Import ZArith List Bool String Lia.
From Stdlib Require Import Floats.PrimFloat Numbers.Cyclic.Int63.Uint63.
Import ListNotations.

Set Warnings "-inexact-float".
Set Implicit Arguments.

Local Open Scope Z_scope.

(** ** The Python values and operations the file uses *)

Module Py.

(** The exceptions that the expressions of the file can raise. *)
Inductive exn : Type :=
| ZeroDivisionError
| OverflowError
| IndexError
| Exception (msg : string).

Inductive outcome (A : Type) : Type :=
| Return (a : A)
| Raise (e : exn).
Arguments Return {A} a.
Arguments Raise {A} e.

(** [l.pop()] on a non-empty list: the list without its last element, and
    that element.  [None] on the empty list (Python raises IndexError). *)
Fixpoint pop {A : Type} (l : list A) : option (list A * A) :=
  match l with
  | [] => None
  | x :: t =>
      match pop t with
      | None => Some ([], x)
      | Some (t', y) => Some (x :: t', y)
      end
  end.

(** [l.append(x)]. *)
Definition append {A : Type} (l : list A) (x : A) : list A := l ++ [x].

(** [len(l)]. *)
Definition len {A : Type} (l : list A) : Z := Z.of_nat (List.length l).

(** [l[i]] with Python's negative indices; [None] is IndexError. *)
Definition getitem {A : Type} (l : list A) (i : Z) : option A :=
  if (0 <=? i) && (i <? len l) then nth_error l (Z.to_nat i)
  else if (- len l <=? i) && (i <? 0) then nth_error l (Z.to_nat (len l + i))
  else None.

(** [float(n)] for an integer that fits a C int, which is what
    [QGraphicsSceneWheelEvent.delta()] returns. *)
Definition float_of_int (n : Z) : float :=
  if n <? 0 then PrimFloat.opp (PrimFloat.of_uint63 (Uint63.of_Z (- n)))
  else PrimFloat.of_uint63 (Uint63.of_Z n).

(** [a / b] on floats: ZeroDivisionError when [b == 0.0] (also for -0.0). *)
Definition truediv (a b : float) : outcome float :=
  if PrimFloat.eqb b 0%float then Raise ZeroDivisionError
  else Return (PrimFloat.div a b).

(** [x == y] where each is [None] or an int (the [axis] arguments). *)
Definition eq_axis (x y : option Z) : bool :=
  match x, y with
  | None, None => true
  | Some a, Some b => a =? b
  | _, _ => false
  end.

(** [x in l] for strings. *)
Fixpoint str_in (x : string) (l : list string) : bool :=
  match l with
  | [] => false
  | y :: t => String.eqb x y || str_in x t
  end.

End Py.

Import Py.

(** ** What the file takes from pyqtgraph, Qt and the C library

  None of this is defined in the file itself. *)

Class Framework : Type := {
(** [pyqtgraph.Point], a [QPointF]: positions and zoom centers. *)
Point : Type;
(** [p == q] on points, as the [if] of [wheelEvent] evaluates it. *)
Point_eq : Point -> Point -> bool;
(** [QTransform], the value of [self.childGroup.transform()]. *)
QTransform : Type;
(** [functions.invertQTransform(tr)]; [None] when it raises, as it does
    in the versions of pyqtgraph that refuse a transform that is not
    invertible. *)
invertQTransform : QTransform -> option QTransform;
(** [tr.map(p)]. *)
QTransform_map : QTransform -> Point -> Point;
(** [QRectF], the entries of [axHistory]. *)
QRectF : Type;
(** [x ** y] on floats (the C library's [pow]); [None] when Python raises
    OverflowError. *)
float_pow : float -> float -> option float
}.

Definition YAxis : Z := 1.
Definition PanMode : Z := 3.
Definition RectMode : Z := 1.
Definition Key_Backspace : Z := 0x01000003.

Section Widget.

Context {F : Framework}.

(** *** Events *)

Record WheelEvent : Type := {
  wheel_pos : Point;   (* ev.pos() *)
  wheel_delta : Z      (* ev.delta() *)
}.

Record DragEvent : Type := {
  drag_isFinish : bool (* ev.isFinish() *)
}.

Record KeyEvent : Type := {
  key_text : string;   (* ev.text() *)
  key_key : Z          (* ev.key() *)
}.

(** *** Observable effects *)

Inductive Signal : Type :=
| sigMouseDragged (sender : positive) (ev : DragEvent) (axis : option Z)
| sigMouseDraggedDone
| sigMouseWheelZoomed (sender : positive) (ev : WheelEvent) (axis : option Z)
| sigHistoryChanged (d : Z)
| zoomSignal (sender : positive) (scale : float) (center : Point)
             (axis : option Z)
| sigRangeChangedManually (mask : list bool).

(** Calls that leave the file: methods of the base class, of the event
    object, and [print].  A call is recorded with its arguments; what the
    framework then does to its own attributes is not this file's code and
    appears, in a sequence of calls, as a framework step of its own. *)
Inductive FrameworkCall : Type :=
| ViewBox_wheelEvent (ev : WheelEvent) (axis : option Z)
| ViewBox_mouseDragEvent (ev : DragEvent) (axis : option Z)
| resetTarget
| scaleBy (s : list (option float)) (center : Point)
| enableAutoRange
| showAxRect (r : QRectF)
| QEvent_accept
| QEvent_ignore
| print_mask (mask : list bool)
| print_scales (s : list (option float)).

Inductive Effect : Type :=
| Emit (s : Signal)
| Call (c : FrameworkCall).

(** *** The widget *)

(** An entry of the undo and redo stacks: the tuple
    [(factor, center, axis)]. *)
Definition Entry : Type := (float * Point * option Z)%type.

Definition entry_scale (e : Entry) : float := fst (fst e).
Definition entry_center (e : Entry) : Point := snd (fst e).
Definition entry_axis (e : Entry) : option Z := snd e.

(** The attributes of the base class that the file reads or writes, and
    [raises]: the rest of the state of the view (its range, its geometry,
    its limits) as far as it matters here, which is whether a call of
    [ViewBox.scaleBy] or of [ViewBox.wheelEvent] made in this state raises
    (they raise when they cannot set the range of the view), and what. *)
Record ViewBox : Type := {
  state_wheelScaleFactor : float;     (* self.state['wheelScaleFactor'] *)
  state_mouseMode : Z;                (* self.state['mouseMode'] *)
  childGroup_transform : QTransform;  (* self.childGroup.transform() *)
  axHistory : list QRectF;
  axHistoryPointer : Z;
  raises : FrameworkCall -> option exn
}.

Record MultiAxisViewBox : Type := {
  self : positive;             (* the identity of the object *)
  undoStack : list Entry;      (* top of the stack is the last element *)
  redoStack : list Entry;
  base : ViewBox
}.

Definition set_undoStack (l : list Entry) (w : MultiAxisViewBox) :=
  {| self := self w; undoStack := l; redoStack := redoStack w;
     base := base w |}.

Definition set_redoStack (l : list Entry) (w : MultiAxisViewBox) :=
  {| self := self w; undoStack := undoStack w; redoStack := l;
     base := base w |}.

Definition set_axHistoryPointer (p : Z) (w : MultiAxisViewBox) :=
  {| self := self w; undoStack := undoStack w; redoStack := redoStack w;
     base := {| state_wheelScaleFactor := state_wheelScaleFactor (base w);
                state_mouseMode := state_mouseMode (base w);
                childGroup_transform := childGroup_transform (base w);
                axHistory := axHistory (base w);
                axHistoryPointer := p;
                raises := raises (base w) |} |}.

(** [__init__]: both stacks empty, the rest is the base class's. *)
Definition init (id : positive) (vb : ViewBox) : MultiAxisViewBox :=
  {| self := id; undoStack := []; redoStack := []; base := vb |}.

(** *** The method monad *)

Record Result (A : Type) : Type := mkResult {
  outcome : Py.outcome A;
  after : MultiAxisViewBox;   (* the widget as the method's assignments
                                 leave it when it stops *)
  effects : list Effect       (* what it emitted and called, in order *)
}.

Definition M (A : Type) : Type := MultiAxisViewBox -> Result A.

Definition ret {A : Type} (a : A) : M A :=
  fun w => mkResult (Return a) w [].

Definition raise {A : Type} (e : exn) : M A :=
  fun w => mkResult (Raise e) w [].

Definition bind {A B : Type} (m : M A) (k : A -> M B) : M B :=
  fun w =>
    match m w with
    | mkResult (Return a) w1 t1 =>
        match k a w1 with
        | mkResult o w2 t2 => mkResult o w2 (t1 ++ t2)
        end
    | mkResult (Raise e) w1 t1 => mkResult (Raise e) w1 t1
    end.

Definition get : M MultiAxisViewBox :=
  fun w => mkResult (Return w) w [].

Definition modify (f : MultiAxisViewBox -> MultiAxisViewBox) : M unit :=
  fun w => mkResult (Return tt) (f w) [].

Definition emit (s : Signal) : M unit :=
  fun w => mkResult (Return tt) w [Emit s].

(** A call that is taken to return: [print], [accept] and [ignore] of the
    event, [_resetTarget], and the calls of the base class that end
    [mouseDragEvent] and [scaleHistory], after which the method assigns
    nothing any more. *)
Definition call (c : FrameworkCall) : M unit :=
  fun w => mkResult (Return tt) w [Call c].

(** A call of a method of the base class that sets the range of the view:
    the call is made, and raises when the view says so. *)
Definition call_base (c : FrameworkCall) : M unit :=
  fun w =>
    match raises (base w) c with
    | Some e => mkResult (Raise e) w [Call c]
    | None => mkResult (Return tt) w [Call c]
    end.

Definition lift {A : Type} (o : Py.outcome A) : M A :=
  fun w => mkResult o w [].

Definition lift_option {A : Type} (e : exn) (o : option A) : M A :=
  match o with
  | Some a => ret a
  | None => raise e
  end.

End Widget.

Declare Scope method_scope.
Delimit Scope method_scope with method.
Notation "x <- m ;; k" := (bind m (fun x => k))
  (at level 61, m at next level, right associativity) : method_scope.
Notation "m ;; k" := (bind m (fun _ => k))
  (at level 61, right associativity) : method_scope.

(** ** The methods of [MultiAxisViewBox] *)

Section Methods.

Context {F : Framework}.

Local Open Scope method_scope.

(** [Point(functions.invertQTransform(self.childGroup.transform()).map(ev.pos()))] *)
Definition wheel_center (w : MultiAxisViewBox) (ev : WheelEvent)
  : Py.outcome Point :=
  match invertQTransform (childGroup_transform (base w)) with
  | Some inv => Return (QTransform_map inv (wheel_pos ev))
  | None => Raise (Exception "Transform is not invertible.")
  end.

(** [1 / (1.02 ** (ev.delta() * self.state['wheelScaleFactor']))] *)
Definition wheel_factor (w : MultiAxisViewBox) (ev : WheelEvent)
  : Py.outcome float :=
  match float_pow 1.02%float
          (PrimFloat.mul (float_of_int (wheel_delta ev))
                         (state_wheelScaleFactor (base w))) with
  | Some p => truediv 1%float p
  | None => Raise OverflowError
  end.

(** [self.undoStack.pop()] *)
Definition undoStack_pop : M Entry :=
  w <- get ;;
  match Py.pop (undoStack w) with
  | Some (rest, top) => modify (set_undoStack rest) ;; ret top
  | None => raise IndexError
  end.

(** [self.undoStack.append(e)] *)
Definition undoStack_append (e : Entry) : M unit :=
  modify (fun w => set_undoStack (Py.append (undoStack w) e) w).

(** [self.redoStack.append(e)] *)
Definition redoStack_append (e : Entry) : M unit :=
  modify (fun w => set_redoStack (Py.append (redoStack w) e) w).

(** The test [axis != ViewBox.YAxis and not fromSignal] of both handlers. *)
Definition propagates (axis : option Z) (fromSignal : bool) : bool :=
  negb (eq_axis axis (Some YAxis)) && negb fromSignal.

Definition wheelEvent (ev : WheelEvent) (axis : option Z) (fromSignal : bool)
  : M unit :=
  w <- get ;;
  (if propagates axis fromSignal
   then emit (sigMouseWheelZoomed (self w) ev axis)
   else ret tt) ;;
  center <- lift (wheel_center w ev) ;;
  factor <- lift (wheel_factor w ev) ;;
  modify (set_redoStack []) ;;
  w <- get ;;
  (match undoStack w with
   | _ :: _ =>
       prev <- undoStack_pop ;;
       if Point_eq (entry_center prev) center
          && eq_axis (entry_axis prev) axis
       then
         let factor := PrimFloat.mul factor (entry_scale prev) in
         undoStack_append (factor, center, axis)
       else
         undoStack_append prev ;;
         undoStack_append (factor, center, axis)
   | [] => undoStack_append (factor, center, axis)
   end) ;;
  call_base (ViewBox_wheelEvent ev axis).

Definition mouseDragEvent (ev : DragEvent) (axis : option Z)
  (fromSignal : bool) : M unit :=
  w <- get ;;
  (if propagates axis fromSignal
   then
     emit (sigMouseDragged (self w) ev axis) ;;
     if drag_isFinish ev
        && (state_mouseMode (base w) =? RectMode)
        && match axis with None => true | Some _ => false end
     then emit sigMouseDraggedDone
     else ret tt
   else ret tt) ;;
  call (ViewBox_mouseDragEvent ev axis).

Definition undo : M unit :=
  w <- get ;;
  match undoStack w with
  | _ :: _ =>
      e <- undoStack_pop ;;
      let '(scale, center, axis) := e in
      let mask := [true; true] in
      let s := map (fun m : bool =>
                      if Bool.eqb m false then None else Some scale) mask in
      call resetTarget ;;
      call (print_mask mask) ;;
      call (print_scales s) ;;
      emit (zoomSignal (self w) scale center axis) ;;
      call_base (scaleBy s center) ;;
      emit (sigRangeChangedManually mask) ;;
      redoScale <- lift (truediv 1%float scale) ;;
      redoStack_append (redoScale, center, axis)
  | [] => ret tt
  end.

Definition scaleHistory (d : Z) : M unit :=
  emit (sigHistoryChanged d) ;;
  w <- get ;;
  if negb (len (axHistory (base w)) =? 0)
  then
    (if (d =? -1) && negb (axHistoryPointer (base w) =? -1)
     then modify (set_axHistoryPointer (axHistoryPointer (base w) - 1))
     else if (d =? 1)
             && negb (axHistoryPointer (base w)
                      =? len (axHistory (base w)) - 1)
     then modify (set_axHistoryPointer (axHistoryPointer (base w) + 1))
     else if d =? 0
     then modify (set_axHistoryPointer (-1))
     else ret tt) ;;
    w <- get ;;
    if axHistoryPointer (base w) =? -1
    then call enableAutoRange
    else
      r <- lift_option IndexError
             (getitem (axHistory (base w)) (axHistoryPointer (base w))) ;;
      call (showAxRect r)
  else ret tt.

Definition keyPressEvent (ev : KeyEvent) : M unit :=
  call QEvent_accept ;;
  if String.eqb (key_text ev) "-"
  then undo
  else if str_in (key_text ev) ["+"; "="]%string
  then scaleHistory 1
  else if key_key ev =? Key_Backspace
  then scaleHistory 0
  else call QEvent_ignore.

(** Whether the event is accepted once the given calls have been made on
    it, from its flag before them. *)
Fixpoint accepted (flag : bool) (tr : list Effect) : bool :=
  match tr with
  | [] => flag
  | Call QEvent_accept :: t => accepted true t
  | Call QEvent_ignore :: t => accepted false t
  | _ :: t => accepted flag t
  end.

(** *** Sequences of calls *)

(** What can happen to the widget between two moments: a call of one of its
    methods, or the framework changing the attributes it owns (the
    transform, the state dictionary, the axis history). *)
Inductive Step : Type :=
| do_wheelEvent (ev : WheelEvent) (axis : option Z) (fromSignal : bool)
| do_mouseDragEvent (ev : DragEvent) (axis : option Z) (fromSignal : bool)
| do_keyPressEvent (ev : KeyEvent)
| do_undo
| do_scaleHistory (d : Z)
| do_framework (f : ViewBox -> ViewBox).

(** The widget after a step; a method that raises leaves the widget as it
    was when the exception left it. *)
Definition step (w : MultiAxisViewBox) (c : Step) : MultiAxisViewBox :=
  match c with
  | do_wheelEvent ev axis fromSignal => after (wheelEvent ev axis fromSignal w)
  | do_mouseDragEvent ev axis fromSignal =>
      after (mouseDragEvent ev axis fromSignal w)
  | do_keyPressEvent ev => after (keyPressEvent ev w)
  | do_undo => after (undo w)
  | do_scaleHistory d => after (scaleHistory d w)
  | do_framework f =>
      {| self := self w; undoStack := undoStack w; redoStack := redoStack w;
         base := f (base w) |}
  end.

Definition run (w : MultiAxisViewBox) (cs : list Step) : MultiAxisViewBox :=
  fold_left step cs w.

(** The test of [wheelEvent] that merges a new zoom into an entry. *)
Definition same_spot (prev : Entry) (center : Point) (axis : option Z)
  : bool :=
  Point_eq (entry_center prev) center && eq_axis (entry_axis prev) axis.

(** No entry of the stack is followed by one with an equal center and an
    equal axis. *)
Fixpoint coalesced (l : list Entry) : bool :=
  match l with
  | [] => true
  | a :: t =>
      match t with
      | [] => true
      | b :: _ => negb (same_spot a (entry_center b) (entry_axis b))
                  && coalesced t
      end
  end.

(** What [wheelEvent] does to the undo stack, as a function of the stack,
    once the factor and the center are known. *)
Definition zoomed (l : list Entry) (factor : float) (center : Point)
  (axis : option Z) : list Entry :=
  match Py.pop l with
  | Some (rest, prev) =>
      if same_spot prev center axis
      then rest ++ [(PrimFloat.mul factor (entry_scale prev), center, axis)]
      else rest ++ [prev; (factor, center, axis)]
  | None => [(factor, center, axis)]
  end.

(** A run of wheel zooms on one axis that continues a zoom already on top
    of the undo stack: each event's center equals, by the test of
    [wheelEvent], the center of the zoom before it, and the framework may
    change its own attributes between two events. *)
Inductive continues (axis : option Z)
  : MultiAxisViewBox -> MultiAxisViewBox -> Prop :=
| continues_here (w : MultiAxisViewBox) : continues axis w w
| continues_zoom (w w1 : MultiAxisViewBox) (f : ViewBox -> ViewBox)
    (ev : WheelEvent) (fromSignal : bool)
    (rest : list Entry) (prev : Entry) (center : Point) :
    continues axis w w1 ->
    undoStack w1 = rest ++ [prev] ->
    wheel_center (step w1 (do_framework f)) ev = Return center ->
    same_spot prev center axis = true ->
    outcome (wheelEvent ev axis fromSignal (step w1 (do_framework f)))
      = Return tt ->
    continues axis w
      (after (wheelEvent ev axis fromSignal (step w1 (do_framework f)))).

(** The effects that are emissions of one given signal. *)
Definition is_sigMouseWheelZoomed (e : Effect) : bool :=
  match e with Emit (sigMouseWheelZoomed _ _ _) => true | _ => false end.

Definition is_sigMouseDragged (e : Effect) : bool :=
  match e with Emit (sigMouseDragged _ _ _) => true | _ => false end.

Definition is_sigMouseDraggedDone (e : Effect) : bool :=
  match e with Emit sigMouseDraggedDone => true | _ => false end.

Definition is_sigHistoryChanged (e : Effect) : bool :=
  match e with Emit (sigHistoryChanged _) => true | _ => false end.

(** The pointer that [scaleHistory] leaves for direction [d], from the
    pointer [p] and the length [n] of a non-empty history. *)
Definition next_pointer (d p n : Z) : Z :=
  if (d =? -1) && negb (p =? -1) then p - 1
  else if (d =? 1) && negb (p =? n - 1) then p + 1
  else if d =? 0 then -1
  else p.

End Methods.

(** ** Notions for the properties of whole histories *)

Section Notions.

Context {F : Framework}.

(** The pointer of the axis history is -1 or an index of the list. *)
Definition pointer_in_range (vb : ViewBox) : Prop :=
  -1 <= axHistoryPointer vb <= len (axHistory vb) - 1.




(** The product that successive zooms at one spot leave in the entry,
    from the factor [acc] already there: each new factor multiplies from
    the left. *)
Definition merged_factor (acc : float) (factors : list float) : float :=
  fold_left (fun a f => PrimFloat.mul f a) factors acc.

(** A run of wheel zooms on one axis, each of which is merged into the
    top entry of the undo stack by the test of [wheelEvent]; before each
    event the framework may change its attributes.  The list holds the
    factors of the zooms in the order of the events. *)
Inductive zoom_run (axis : option Z)
  : MultiAxisViewBox -> list float -> MultiAxisViewBox -> Prop :=
| zoom_run_done (w : MultiAxisViewBox) : zoom_run axis w [] w
| zoom_run_zoom (w : MultiAxisViewBox) (f : ViewBox -> ViewBox)
    (ev : WheelEvent) (fromSignal : bool) (center : Point)
    (factor : float) (factors : list float) (w' : MultiAxisViewBox) :
    wheel_center (step w (do_framework f)) ev = Return center ->
    wheel_factor (step w (do_framework f)) ev = Return factor ->
    (exists rest prev,
        undoStack w = rest ++ [prev]
        /\ same_spot prev center axis = true) ->
    zoom_run axis
      (after (wheelEvent ev axis fromSignal (step w (do_framework f))))
      factors w' ->
    zoom_run axis w (factor :: factors) w'.

End Notions.

(** ** A concrete framework for examples

    Points on the integer grid compared coordinate by coordinate; a
    transform is a translation, or [None] for one that is not invertible;
    [pow] is tabulated at the exponents the examples use, with the values
    CPython prints for [1.02 ** 15.0], [1.02 ** 45.0], [1.02 ** -50000.0]
    (which underflows to [0.0]) and [1.02 ** 50000.0] (OverflowError). *)

Definition grid_eq (p q : Z * Z) : bool :=
  (fst p =? fst q) && (snd p =? snd q).

Definition grid_invert (t : option (Z * Z)) : option (option (Z * Z)) :=
  match t with
  | Some (dx, dy) => Some (Some (- dx, - dy))
  | None => None
  end.

Definition grid_map (t : option (Z * Z)) (p : Z * Z) : Z * Z :=
  match t with
  | Some (dx, dy) => (fst p + dx, snd p + dy)
  | None => p
  end.

Definition pow_table (x y : float) : option float :=
  if PrimFloat.eqb y 15%float then Some 1.3458683383241299%float
  else if PrimFloat.eqb y 45%float then Some 2.437854205301346%float
  else if PrimFloat.eqb y (-50000)%float then Some 0%float
  else if PrimFloat.eqb y 50000%float then None
  else Some 1%float.

Definition grid : Framework := {|
  Point := Z * Z;
  Point_eq := grid_eq;
  QTransform := option (Z * Z);
  invertQTransform := grid_invert;
  QTransform_map := grid_map;
  QRectF := Z * Z * Z * Z;
  float_pow := pow_table
|}.

(** A view that cannot set a range that is not finite: [scaleBy] raises
    for a scale that is infinite or not a number, as pyqtgraph's
    [setRange] does, and the base wheel handler returns. *)
Definition not_finite (x : option float) : bool :=
  match x with
  | Some f => PrimFloat.is_nan f || PrimFloat.is_infinity f
  | None => false
  end.

Definition grid_raises (c : @FrameworkCall grid) : option exn :=
  match c with
  | scaleBy s _ =>
      if existsb not_finite s then Some (Exception "Cannot set range")
      else None
  | _ => None
  end.

(** A view in which the base wheel handler cannot set the range either. *)
Definition stuck_raises (c : @FrameworkCall grid) : option exn :=
  match c with
  | ViewBox_wheelEvent _ _ => Some (Exception "Cannot set range")
  | _ => grid_raises c
  end.

(** A view box with the default wheel scale factor, in rectangle-select
    mode, with two rectangles in its axis history. *)
Definition grid_base (ptr : Z) : @ViewBox grid :=
  @Build_ViewBox grid (-0.125)%float RectMode (Some (10, 20))
    [(0, 0, 4, 4); (1, 1, 2, 2)] ptr grid_raises.

(** The same view box before any rectangle zoom. *)
Definition grid_base_fresh : @ViewBox grid :=
  @Build_ViewBox grid (-0.125)%float RectMode (Some (10, 20)) [] (-1)
    grid_raises.

Definition grid_view (ptr : Z) : @MultiAxisViewBox grid :=
  init 7 (grid_base ptr).

(** One notch of the wheel at scene position (13, 24). *)
Definition notch : @WheelEvent grid :=
  @Build_WheelEvent grid (13, 24) (-120).

(** The same notch elsewhere. *)
Definition notch_elsewhere : @WheelEvent grid :=
  @Build_WheelEvent grid (50, 60) (-120).

(** The factor of one notch with the default wheel scale factor. *)
Definition notch_factor : float :=
  PrimFloat.div 1%float 1.3458683383241299%float.

(** Three notches in one event, at the same position. *)
Definition fast_scroll : @WheelEvent grid :=
  @Build_WheelEvent grid (13, 24) (-360).

(** A scroll so large that [1.02 ** 50000.0] overflows, and its opposite,
    for which [1.02 ** -50000.0] is [0.0]. *)
Definition huge_scroll : @WheelEvent grid :=
  @Build_WheelEvent grid (13, 24) (-400000).

Definition huge_scroll_back : @WheelEvent grid :=
  @Build_WheelEvent grid (13, 24) 400000.

(** The view after one zoom, with a transform that is not invertible. *)
Definition collapsed : @MultiAxisViewBox grid :=
  @Build_MultiAxisViewBox grid 7 [(notch_factor, (3, 4), None)] []
    (@Build_ViewBox grid (-0.125)%float RectMode None [] (-1) grid_raises).

(** The view after one zoom, and after undoing it. *)
Definition zoomed_once : @MultiAxisViewBox grid :=
  after (wheelEvent notch None false (grid_view (-1))).

Definition undone : @MultiAxisViewBox grid := after (undo zoomed_once).

(** A view whose top undo entry has scale 0.0. *)
Definition zero_top : @MultiAxisViewBox grid :=
  @Build_MultiAxisViewBox grid 7 [(0%float, (3, 4), None)] []
    (grid_base (-1)).

(** A view whose top undo entry has an infinite scale. *)
Definition infinite_top : @MultiAxisViewBox grid :=
  @Build_MultiAxisViewBox grid 7 [(PrimFloat.infinity, (3, 4), None)] []
    (grid_base (-1)).

(** The view after an undo, in a state in which the base wheel handler
    raises. *)
Definition stuck : @MultiAxisViewBox grid :=
  @Build_MultiAxisViewBox grid 7 (undoStack undone) (redoStack undone)
    (@Build_ViewBox grid (-0.125)%float RectMode (Some (10, 20))
       [(0, 0, 4, 4); (1, 1, 2, 2)] (-1) stuck_raises).

(** The end of a drag, and key presses. *)
Definition drag_end : DragEvent := {| drag_isFinish := true |}.

Definition key_minus : KeyEvent := {| key_text := "-"; key_key := 0x2d |}.
Definition key_plus : KeyEvent := {| key_text := "+"; key_key := 0x2b |}.
Definition key_backspace : KeyEvent :=
  {| key_text := String (Ascii.ascii_of_nat 8) EmptyString;
     key_key := Key_Backspace |}.
Definition key_a : KeyEvent := {| key_text := "a"; key_key := 0x41 |}.


Definition sibling_once : @MultiAxisViewBox grid :=
  after (wheelEvent notch None true (init 8 (grid_base (-1)))).

Definition notch_entry : @Entry grid := (notch_factor, (3, 4), None).


Definition fast_factor : float :=
  PrimFloat.div 1%float 2.437854205301346%float.

(** ** A framework that compares points with a tolerance

    Points with float coordinates, equal when each coordinate differs by
    at most 1e-12, the tolerance of Qt's [qFuzzyIsNull], by which Qt
    compares the coordinates of two [QPointF]; the transform is the
    identity.  This equality is symmetric and not transitive. *)

Definition near (a b : float) : bool :=
  PrimFloat.leb (PrimFloat.abs (PrimFloat.sub a b)) 1e-12%float.

Definition fuzzy_eq (p q : float * float) : bool :=
  near (fst p) (fst q) && near (snd p) (snd q).

Definition fuzzy : Framework := {|
  Point := float * float;
  Point_eq := fuzzy_eq;
  QTransform := unit;
  invertQTransform := fun t => Some t;
  QTransform_map := fun _ p => p;
  QRectF := unit;
  float_pow := pow_table
|}.

Definition fuzzy_view : @MultiAxisViewBox fuzzy :=
  init 1 (@Build_ViewBox fuzzy (-0.125)%float PanMode tt [] (-1)
            (fun _ => None)).

(** One notch at the point with abscissa [x], in view coordinates. *)
Definition notch_at (x : float) : @WheelEvent fuzzy :=
  @Build_WheelEvent fuzzy (x, 0%float) (-120).

(** Three zooms: at 0, at 1.5e-12 (not equal to 0, so pushed), at 0.75e-12
    (equal to 1.5e-12, so merged, and equal to 0 as well). *)
Definition three_near_zooms : list (@Step fuzzy) :=
  [do_wheelEvent (notch_at 0%float) None false;
   do_wheelEvent (notch_at 1.5e-12%float) None false;
   do_wheelEvent (notch_at 0.75e-12%float) None false].

(** ** Properties *)

Unset Implicit Arguments.

Section Properties.

Context {F : Framework}.

Lemma pop_snoc {A : Type} (l : list A) (x : A) :
  Py.pop (l ++ [x]) = Some (l, x).
Proof.
  induction l as [|a l IH]; simpl.
  - reflexivity.
  - rewrite IH. reflexivity.
Qed.

Lemma pop_some {A : Type} (l l' : list A) (x : A) :
  Py.pop l = Some (l', x) -> l = l' ++ [x].
Proof.
  revert l'. induction l as [|a l IH]; simpl; intros l' H.
  - discriminate.
  - destruct (Py.pop l) as [[t y]|] eqn:E.
    + inversion H; subst. simpl. f_equal. apply IH. reflexivity.
    + inversion H; subst. destruct l as [|b l]; [reflexivity|].
      simpl in E. destruct (Py.pop l) as [[? ?]|]; discriminate.
Qed.

Lemma snoc_cases {A : Type} (l : list A) :
  l = [] \/ exists l' x, l = l' ++ [x].
Proof.
  destruct l as [|a l]; [left; reflexivity|right].
  destruct (@exists_last _ (a :: l)) as [l' [x E]]; [discriminate|].
  exists l', x. exact E.
Qed.

Lemma match_snoc {A B : Type} (l : list A) (x : A) (a b : B) :
  match l ++ [x] with _ :: _ => a | [] => b end = a.
Proof. destruct l; reflexivity. Qed.

Lemma len_app {A : Type} (l1 l2 : list A) :
  Py.len (l1 ++ l2) = Py.len l1 + Py.len l2.
Proof. unfold Py.len. rewrite length_app. lia. Qed.

Lemma eq_axis_true (a b : option Z) : eq_axis a b = true <-> a = b.
Proof.
  destruct a as [x|], b as [y|]; simpl; split; intro H;
    try discriminate; try reflexivity.
  - apply Z.eqb_eq in H. congruence.
  - inversion H. apply Z.eqb_refl.
Qed.

(** *** The undo stack after a wheel zoom *)

Lemma wheelEvent_returns (w : MultiAxisViewBox) (ev : WheelEvent)
  (axis : option Z) (fromSignal : bool) (center : Point) (factor : float) :
  wheel_center w ev = Return center ->
  wheel_factor w ev = Return factor ->
  wheelEvent ev axis fromSignal w =
    mkResult
      (match raises (base w) (ViewBox_wheelEvent ev axis) with
       | Some e => Raise e
       | None => Return tt
       end)
      {| self := self w;
         undoStack := zoomed (undoStack w) factor center axis;
         redoStack := [];
         base := base w |}
      ((if propagates axis fromSignal
        then [Emit (sigMouseWheelZoomed (self w) ev axis)] else [])
       ++ [Call (ViewBox_wheelEvent ev axis)]).
Proof.
  intros Hc Hf.
  unfold wheelEvent, zoomed, undoStack_pop, undoStack_append, bind, get,
    lift, modify, ret, emit, call_base, set_undoStack, set_redoStack,
    Py.append.
  cbn. rewrite Hc, Hf.
  destruct (snoc_cases (undoStack w)) as [E | [rest [prev E]]].
  - destruct (propagates axis fromSignal); cbn; rewrite E; cbn;
      destruct (raises (base w) (ViewBox_wheelEvent ev axis));
      reflexivity.
  - destruct (propagates axis fromSignal); cbn; rewrite E;
      rewrite match_snoc; cbn; rewrite pop_snoc; cbn; unfold same_spot;
      destruct (Point_eq (entry_center prev) center
                && eq_axis (entry_axis prev) axis); cbn;
      destruct (raises (base w) (ViewBox_wheelEvent ev axis));
      rewrite <- ?app_assoc; reflexivity.
Qed.

Lemma wheelEvent_no_center (w : MultiAxisViewBox) (ev : WheelEvent)
  (axis : option Z) (fromSignal : bool) (e : exn) :
  wheel_center w ev = Raise e ->
  wheelEvent ev axis fromSignal w =
    mkResult (Raise e) w
      (if propagates axis fromSignal
       then [Emit (sigMouseWheelZoomed (self w) ev axis)] else []).
Proof.
  intros Hc. unfold wheelEvent, bind, get, lift, ret, emit. cbn.
  rewrite Hc. destruct (propagates axis fromSignal); reflexivity.
Qed.

Lemma wheelEvent_no_factor (w : MultiAxisViewBox) (ev : WheelEvent)
  (axis : option Z) (fromSignal : bool) (center : Point) (e : exn) :
  wheel_center w ev = Return center ->
  wheel_factor w ev = Raise e ->
  wheelEvent ev axis fromSignal w =
    mkResult (Raise e) w
      (if propagates axis fromSignal
       then [Emit (sigMouseWheelZoomed (self w) ev axis)] else []).
Proof.
  intros Hc Hf. unfold wheelEvent, bind, get, lift, ret, emit. cbn.
  rewrite Hc, Hf. destruct (propagates axis fromSignal); reflexivity.
Qed.

(** C1. A wheel zoom whose center and factor have been computed either
    multiplies its factor into the top entry of the undo stack, when that
    entry has an equal center and an equal axis, leaving the length of the
    stack as it was, or else pushes a new entry, making the stack one
    longer.  This holds for every axis and every value of [fromSignal]. *)
Theorem wheelEvent_coalesces_or_pushes (w : MultiAxisViewBox)
  (ev : WheelEvent) (axis : option Z) (fromSignal : bool)
  (center : Point) (factor : float) :
  wheel_center w ev = Return center ->
  wheel_factor w ev = Return factor ->
  let w' := after (wheelEvent ev axis fromSignal w) in
  (forall rest scale c a,
      undoStack w = rest ++ [(scale, c, a)] ->
      Point_eq c center = true -> a = axis ->
      undoStack w' = rest ++ [(PrimFloat.mul factor scale, center, axis)]
      /\ List.length (undoStack w') = List.length (undoStack w))
  /\ (undoStack w = []
      \/ (exists rest scale c a,
             undoStack w = rest ++ [(scale, c, a)]
             /\ (Point_eq c center = false \/ a <> axis)) ->
      undoStack w' = undoStack w ++ [(factor, center, axis)]
      /\ List.length (undoStack w') = S (List.length (undoStack w))).
Proof.
  intros Hc Hf w'. subst w'.
  rewrite (wheelEvent_returns w ev axis fromSignal center factor Hc Hf).
  cbn. split.
  - intros rest scale c a E Hpt Hax. unfold zoomed.
    rewrite E, pop_snoc. unfold same_spot. cbn.
    rewrite Hpt. subst a.
    rewrite (proj2 (eq_axis_true axis axis) eq_refl). cbn.
    split; [reflexivity|]. rewrite !length_app. reflexivity.
  - intros [E | [rest [scale [c [a [E Hne]]]]]]; unfold zoomed.
    + rewrite E. cbn. split; reflexivity.
    + rewrite E, pop_snoc. unfold same_spot. cbn.
      assert (Hs : Point_eq c center && eq_axis a axis = false).
      { destruct Hne as [Hpt | Hax].
        - rewrite Hpt. reflexivity.
        - destruct (eq_axis a axis) eqn:Ea.
          + apply eq_axis_true in Ea. contradiction.
          + apply andb_false_r. }
      rewrite Hs. rewrite <- app_assoc. cbn. split; [reflexivity|].
      rewrite !length_app. cbn. unfold Entry. lia.
Qed.

(** C2. When a call of [wheelEvent] returns, the redo stack is empty,
    whatever the axis and whether or not the event came from a signal; and
    the call does return whenever the center and the factor can be
    computed and the base class's handler returns. *)
Theorem wheelEvent_clears_redoStack (w : MultiAxisViewBox)
  (ev : WheelEvent) (axis : option Z) (fromSignal : bool) :
  (outcome (wheelEvent ev axis fromSignal w) = Return tt ->
   redoStack (after (wheelEvent ev axis fromSignal w)) = [])
  /\ (forall center factor,
         wheel_center w ev = Return center ->
         wheel_factor w ev = Return factor ->
         raises (base w) (ViewBox_wheelEvent ev axis) = None ->
         outcome (wheelEvent ev axis fromSignal w) = Return tt).
Proof.
  split.
  - destruct (wheel_center w ev) as [c|e] eqn:Hc.
    + destruct (wheel_factor w ev) as [f|e] eqn:Hf.
      * rewrite (wheelEvent_returns w ev axis fromSignal c f Hc Hf).
        reflexivity.
      * rewrite (wheelEvent_no_factor w ev axis fromSignal c e Hc Hf).
        discriminate.
    + rewrite (wheelEvent_no_center w ev axis fromSignal e Hc).
      discriminate.
  - intros c f Hc Hf Hb.
    rewrite (wheelEvent_returns w ev axis fromSignal c f Hc Hf).
    cbn [outcome]. rewrite Hb. reflexivity.
Qed.

(** *** Undo *)

Lemma undo_top (w : MultiAxisViewBox) (rest : list Entry) (scale : float)
  (center : Point) (axis : option Z) :
  undoStack w = rest ++ [(scale, center, axis)] ->
  undo w =
    let w1 := {| self := self w; undoStack := rest;
                 redoStack := redoStack w; base := base w |} in
    let scaled := [Call resetTarget;
                   Call (print_mask [true; true]);
                   Call (print_scales [Some scale; Some scale]);
                   Emit (zoomSignal (self w) scale center axis);
                   Call (scaleBy [Some scale; Some scale] center)] in
    let tr := scaled ++ [Emit (sigRangeChangedManually [true; true])] in
    match raises (base w) (scaleBy [Some scale; Some scale] center) with
    | Some e => mkResult (Raise e) w1 scaled
    | None =>
        match truediv 1%float scale with
        | Return redoScale =>
            mkResult (Return tt)
              {| self := self w; undoStack := rest;
                 redoStack := redoStack w ++ [(redoScale, center, axis)];
                 base := base w |} tr
        | Raise e => mkResult (Raise e) w1 tr
        end
    end.
Proof.
  intros E.
  unfold undo, undoStack_pop, redoStack_append, bind, get, lift, modify,
    ret, emit, call, call_base, set_undoStack, set_redoStack, Py.append.
  cbn. rewrite E, match_snoc. cbn. rewrite E, pop_snoc. cbn.
  destruct (raises (base w) (scaleBy [Some scale; Some scale] center));
    [reflexivity|].
  destruct (truediv 1 scale); reflexivity.
Qed.

(** C3, as the code has it.  With an entry [(scale, center, axis)] on top
    of the undo stack whose scale is not zero, and in a view in which the
    base class's [scaleBy] returns for that scale and center, [undo] pops
    that entry, emits the zoom signal carrying (self, scale, center,
    axis), scales the view by the recorded factor on both axes around the
    recorded center, the mask being [True, True] whatever the recorded
    axis, and appends (1/scale, center, axis) to the redo stack. *)
Theorem undo_pops_scales_and_records (w : MultiAxisViewBox)
  (rest : list Entry) (scale : float) (center : Point) (axis : option Z) :
  undoStack w = rest ++ [(scale, center, axis)] ->
  PrimFloat.eqb scale 0%float = false ->
  raises (base w) (scaleBy [Some scale; Some scale] center) = None ->
  undo w =
    mkResult (Return tt)
      {| self := self w;
         undoStack := rest;
         redoStack :=
           redoStack w ++ [(PrimFloat.div 1%float scale, center, axis)];
         base := base w |}
      [Call resetTarget;
       Call (print_mask [true; true]);
       Call (print_scales [Some scale; Some scale]);
       Emit (zoomSignal (self w) scale center axis);
       Call (scaleBy [Some scale; Some scale] center);
       Emit (sigRangeChangedManually [true; true])].
Proof.
  intros E Hnz Hb. rewrite (undo_top w rest scale center axis E).
  cbn zeta. unfold truediv. rewrite Hb, Hnz.
  reflexivity.
Qed.

Lemma undo_nothing_to_pop (w : MultiAxisViewBox) :
  undoStack w = [] ->
  undo w = mkResult (Return tt) w [].
Proof.
  intros E. unfold undo, bind, get, ret. cbn. rewrite E. cbn.
  reflexivity.
Qed.

(** C4. On an empty undo stack [undo] does nothing: it returns without an
    exception, emits and calls nothing, and leaves the widget as it was. *)
Theorem undo_empty_is_noop (w : MultiAxisViewBox) :
  undoStack w = [] ->
  undo w = mkResult (Return tt) w [].
Proof. exact (undo_nothing_to_pop w). Qed.

(** *** The axis history *)

Lemma scaleHistory_empty (w : MultiAxisViewBox) (d : Z) :
  axHistory (base w) = [] ->
  scaleHistory d w = mkResult (Return tt) w [Emit (sigHistoryChanged d)].
Proof.
  intros E. unfold scaleHistory, bind, get, emit, ret. cbn.
  rewrite E. reflexivity.
Qed.

Lemma scaleHistory_nonempty (w : MultiAxisViewBox) (d : Z) :
  axHistory (base w) <> [] ->
  let p' := next_pointer d (axHistoryPointer (base w))
              (len (axHistory (base w))) in
  scaleHistory d w =
    if p' =? -1
    then mkResult (Return tt) (set_axHistoryPointer p' w)
           [Emit (sigHistoryChanged d); Call enableAutoRange]
    else
      match getitem (axHistory (base w)) p' with
      | Some r =>
          mkResult (Return tt) (set_axHistoryPointer p' w)
            [Emit (sigHistoryChanged d); Call (showAxRect r)]
      | None =>
          mkResult (Raise IndexError) (set_axHistoryPointer p' w)
            [Emit (sigHistoryChanged d)]
      end.
Proof.
  destruct w as [id us rs [wsf mm tr h p]]. cbn. intros Hne.
  destruct h as [|r0 h]; [contradiction|].
  unfold scaleHistory, next_pointer, bind, get, emit, ret, call, modify,
    lift_option, raise, set_axHistoryPointer.
  cbn -[getitem len Z.sub Z.add].
  assert (Hlen : (len (r0 :: h) =? 0) = false).
  { apply Z.eqb_neq. unfold len. cbn [List.length]. lia. }
  rewrite Hlen. cbn -[getitem len Z.sub Z.add].
  destruct (d =? -1) eqn:D1; destruct (p =? -1) eqn:P1;
    destruct (d =? 1) eqn:D2;
    destruct (p =? len (r0 :: h) - 1) eqn:P2;
    destruct (d =? 0) eqn:D0;
    cbn -[getitem len Z.sub Z.add];
    rewrite ?P1; cbn -[getitem len Z.sub Z.add];
    try reflexivity;
    repeat match goal with
      | |- context [?a =? -1] => destruct (a =? -1) eqn:?
      | |- context [getitem ?l ?i] => destruct (getitem l i) eqn:?
      end;
    cbn -[getitem len Z.sub Z.add]; try reflexivity.
Qed.

Lemma getitem_in_range {A : Type} (l : list A) (i : Z) :
  0 <= i < len l ->
  exists x, nth_error l (Z.to_nat i) = Some x /\ getitem l i = Some x.
Proof.
  intros [H0 H1]. unfold getitem.
  assert (Hlt : (Z.to_nat i < List.length l)%nat) by (unfold len in H1; lia).
  destruct (nth_error l (Z.to_nat i)) as [x|] eqn:E.
  - exists x. split; [reflexivity|].
    destruct (0 <=? i) eqn:A0; [|apply Z.leb_gt in A0; lia].
    destruct (i <? len l) eqn:A1; [|apply Z.ltb_ge in A1; lia].
    cbn. reflexivity.
  - apply nth_error_None in E. lia.
Qed.

Lemma set_axHistoryPointer_same (w : MultiAxisViewBox) :
  set_axHistoryPointer (axHistoryPointer (base w)) w = w.
Proof. destruct w as [id us rs [wsf mm tr h p]]. reflexivity. Qed.

(** C5, as the code has it.  On an empty history [scaleHistory] only emits
    the history-changed signal: the pointer stays and auto-range is not
    triggered.  On a non-empty history, with the pointer in
    [-1, length-1]: direction -1 moves the pointer back by one, bounded at
    -1 (so from 0 it reaches -1); direction +1 moves it forward by one,
    bounded at the last index; direction 0 resets it to -1; any other
    direction leaves it.  Then a pointer of -1 triggers auto-range and any
    other pointer shows the rectangle stored at that index.  The method
    assigns nothing but the pointer. *)
Theorem scaleHistory_moves_pointer (w : MultiAxisViewBox) (d : Z) :
  (axHistory (base w) = [] ->
   scaleHistory d w = mkResult (Return tt) w [Emit (sigHistoryChanged d)])
  /\ (axHistory (base w) <> [] ->
      -1 <= axHistoryPointer (base w) <= len (axHistory (base w)) - 1 ->
      let p := axHistoryPointer (base w) in
      let n := len (axHistory (base w)) in
      let r := scaleHistory d w in
      let p' := axHistoryPointer (base (after r)) in
      outcome r = Return tt
      /\ after r = set_axHistoryPointer p' w
      /\ (d = -1 -> p' = Z.max (-1) (p - 1))
      /\ (d = 1 -> p' = Z.min (n - 1) (p + 1))
      /\ (d = 0 -> p' = -1)
      /\ (d <> -1 -> d <> 1 -> d <> 0 -> p' = p)
      /\ (p' = -1 ->
          effects r = [Emit (sigHistoryChanged d); Call enableAutoRange])
      /\ (p' <> -1 ->
          exists rect,
            nth_error (axHistory (base w)) (Z.to_nat p') = Some rect
            /\ effects r =
                 [Emit (sigHistoryChanged d); Call (showAxRect rect)])).
Proof.
  split; [apply scaleHistory_empty|].
  intros Hne Hrange p n r p'.
  pose proof (scaleHistory_nonempty w d Hne) as H. cbn zeta in H.
  fold p n in H. fold r in H.
  set (q := next_pointer d p n) in *.
  assert (Hq : -1 <= q <= n - 1
               /\ (d = -1 -> q = Z.max (-1) (p - 1))
               /\ (d = 1 -> q = Z.min (n - 1) (p + 1))
               /\ (d = 0 -> q = -1)
               /\ (d <> -1 -> d <> 1 -> d <> 0 -> q = p)).
  { subst q. unfold next_pointer. fold p n in Hrange.
    destruct (d =? -1) eqn:D1; destruct (p =? -1) eqn:P1;
      destruct (d =? 1) eqn:D2; destruct (p =? n - 1) eqn:P2;
      destruct (d =? 0) eqn:D0; cbn;
      rewrite ?Z.eqb_eq, ?Z.eqb_neq in *; lia. }
  destruct Hq as [Hqr Hq].
  assert (Hp' : p' = q /\ outcome r = Return tt
                /\ after r = set_axHistoryPointer q w
                /\ (q = -1 ->
                    effects r =
                      [Emit (sigHistoryChanged d); Call enableAutoRange])
                /\ (q <> -1 ->
                    exists rect,
                      nth_error (axHistory (base w)) (Z.to_nat q) = Some rect
                      /\ effects r =
                           [Emit (sigHistoryChanged d);
                            Call (showAxRect rect)])).
  { subst p'. destruct (q =? -1) eqn:Q.
    - rewrite H. cbn. apply Z.eqb_eq in Q.
      repeat split; try reflexivity. intros; contradiction.
    - apply Z.eqb_neq in Q.
      destruct (getitem_in_range (axHistory (base w)) q) as [x [Hn Hg]];
        [fold n; lia|].
      rewrite H, Hg. cbn.
      repeat split; try reflexivity; [intros; contradiction|].
      intros _. exists x. split; [exact Hn | reflexivity]. }
  destruct Hp' as [E [Ho [Ha [He1 He2]]]]. rewrite E.
  repeat split; try tauto.
Qed.

(** C6. Every call of [scaleHistory] emits the history-changed signal
    exactly once, carrying the direction as given, for every integer
    direction and every history list, the empty one included, and also
    when the pointer does not move. *)
Theorem scaleHistory_notifies_once (w : MultiAxisViewBox) (d : Z) :
  filter is_sigHistoryChanged (effects (scaleHistory d w))
  = [Emit (sigHistoryChanged d)].
Proof.
  destruct (axHistory (base w)) as [|r0 h] eqn:E.
  - rewrite (scaleHistory_empty w d E). reflexivity.
  - assert (Hne : axHistory (base w) <> []) by (rewrite E; discriminate).
    rewrite (scaleHistory_nonempty w d Hne). cbn zeta.
    destruct (_ =? -1); [reflexivity|].
    destruct (getitem _ _); reflexivity.
Qed.

(** *** Propagation *)

Lemma propagates_true (axis : option Z) (fromSignal : bool) :
  propagates axis fromSignal = true
  <-> fromSignal = false /\ axis <> Some YAxis.
Proof.
  unfold propagates. rewrite andb_true_iff, !negb_true_iff. split.
  - intros [Ha Hf]. split; [exact Hf|]. intros E.
    apply eq_axis_true in E. congruence.
  - intros [Hf Ha]. split; [|exact Hf].
    destruct (eq_axis axis (Some YAxis)) eqn:E; [|reflexivity].
    apply eq_axis_true in E. contradiction.
Qed.

Lemma propagates_false (axis : option Z) (fromSignal : bool) :
  propagates axis fromSignal = false
  <-> fromSignal = true \/ axis = Some YAxis.
Proof.
  unfold propagates. rewrite andb_false_iff, !negb_false_iff. split.
  - intros [Ha | Hf]; [right; apply eq_axis_true; exact Ha | left; exact Hf].
  - intros [Hf | Ha]; [right; exact Hf | left; apply eq_axis_true; exact Ha].
Qed.

Lemma wheelEvent_effects (w : MultiAxisViewBox) (ev : WheelEvent)
  (axis : option Z) (fromSignal : bool) :
  exists rest,
    effects (wheelEvent ev axis fromSignal w) =
      (if propagates axis fromSignal
       then [Emit (sigMouseWheelZoomed (self w) ev axis)] else []) ++ rest
    /\ (rest = [] \/ rest = [Call (ViewBox_wheelEvent ev axis)]).
Proof.
  destruct (wheel_center w ev) as [c|e] eqn:Hc.
  - destruct (wheel_factor w ev) as [f|e] eqn:Hf.
    + rewrite (wheelEvent_returns w ev axis fromSignal c f Hc Hf).
      eexists. split; [reflexivity | right; reflexivity].
    + rewrite (wheelEvent_no_factor w ev axis fromSignal c e Hc Hf).
      exists []. rewrite app_nil_r. split; [reflexivity | left; reflexivity].
  - rewrite (wheelEvent_no_center w ev axis fromSignal e Hc).
    exists []. rewrite app_nil_r. split; [reflexivity | left; reflexivity].
Qed.

Lemma mouseDragEvent_eq (w : MultiAxisViewBox) (ev : DragEvent)
  (axis : option Z) (fromSignal : bool) :
  mouseDragEvent ev axis fromSignal w =
    mkResult (Return tt) w
      ((if propagates axis fromSignal
        then Emit (sigMouseDragged (self w) ev axis)
             :: (if drag_isFinish ev
                    && (state_mouseMode (base w) =? RectMode)
                    && match axis with None => true | Some _ => false end
                 then [Emit sigMouseDraggedDone] else [])
        else [])
       ++ [Call (ViewBox_mouseDragEvent ev axis)]).
Proof.
  unfold mouseDragEvent, bind, get, emit, ret, call. cbn.
  destruct (propagates axis fromSignal); cbn; [|reflexivity].
  destruct (drag_isFinish ev && (state_mouseMode (base w) =? RectMode)
            && match axis with None => true | Some _ => false end);
    reflexivity.
Qed.

(** C7. A wheel event, and likewise a drag event, is broadcast exactly
    when [fromSignal] is false and its axis is not the Y axis, and then
    once, carrying the widget, the event and the axis; an event on the Y
    axis or one that came from a signal is not broadcast. *)
Theorem broadcast_iff_local_and_not_y (w : MultiAxisViewBox)
  (wev : WheelEvent) (dev : DragEvent) (axis : option Z)
  (fromSignal : bool) :
  let we := effects (wheelEvent wev axis fromSignal w) in
  let de := effects (mouseDragEvent dev axis fromSignal w) in
  (fromSignal = false /\ axis <> Some YAxis ->
   filter is_sigMouseWheelZoomed we
     = [Emit (sigMouseWheelZoomed (self w) wev axis)]
   /\ filter is_sigMouseDragged de
     = [Emit (sigMouseDragged (self w) dev axis)])
  /\ (fromSignal = true \/ axis = Some YAxis ->
      filter is_sigMouseWheelZoomed we = []
      /\ filter is_sigMouseDragged de = []).
Proof.
  intros we de. subst we de.
  destruct (wheelEvent_effects w wev axis fromSignal) as [rest [Ew Hrest]].
  rewrite Ew, mouseDragEvent_eq. cbn [effects].
  split; intros H.
  - apply propagates_true in H. rewrite H. split.
    + destruct Hrest as [-> | ->]; reflexivity.
    + destruct (drag_isFinish dev && _ && _); reflexivity.
  - apply propagates_false in H. rewrite H. split.
    + destruct Hrest as [-> | ->]; reflexivity.
    + reflexivity.
Qed.

(** C8, as the code has it.  A drag event that reports its end, in
    rectangle-select mode, with no axis, and that did not come from a
    signal, emits the drag-finished signal, once; a drag event that came
    from a signal never emits it. *)
Theorem drag_finished_when_not_propagated (w : MultiAxisViewBox)
  (ev : DragEvent) :
  (drag_isFinish ev = true ->
   state_mouseMode (base w) = RectMode ->
   filter is_sigMouseDraggedDone (effects (mouseDragEvent ev None false w))
   = [Emit sigMouseDraggedDone])
  /\ (forall axis,
         filter is_sigMouseDraggedDone
           (effects (mouseDragEvent ev axis true w)) = []).
Proof.
  split.
  - intros Hfin Hmode. rewrite mouseDragEvent_eq. cbn.
    rewrite Hfin, Hmode. reflexivity.
  - intros axis. rewrite mouseDragEvent_eq.
    assert (H : propagates axis true = false)
      by (apply propagates_false; left; reflexivity).
    rewrite H. reflexivity.
Qed.

(** *** Keys *)

Lemma accepted_undo (w : MultiAxisViewBox) (flag : bool) :
  accepted flag (effects (undo w)) = flag.
Proof.
  destruct (snoc_cases (undoStack w)) as [E | [rest [[[s c] a] E]]].
  - rewrite (undo_nothing_to_pop w E). reflexivity.
  - rewrite (undo_top w rest s c a E). cbn zeta.
    destruct (raises (base w) _); [reflexivity|].
    destruct (truediv 1 s); reflexivity.
Qed.

Lemma accepted_scaleHistory (w : MultiAxisViewBox) (d : Z) (flag : bool) :
  accepted flag (effects (scaleHistory d w)) = flag.
Proof.
  destruct (axHistory (base w)) as [|r0 h] eqn:E.
  - rewrite (scaleHistory_empty w d E). reflexivity.
  - assert (Hne : axHistory (base w) <> []) by (rewrite E; discriminate).
    rewrite (scaleHistory_nonempty w d Hne). cbn zeta.
    destruct (_ =? -1); [reflexivity|].
    destruct (getitem _ _); reflexivity.
Qed.

Lemma keyPressEvent_cases (w : MultiAxisViewBox) (ev : KeyEvent) :
  let handled (m : M unit) :=
    mkResult (outcome (m w)) (after (m w))
      (Call QEvent_accept :: effects (m w)) in
  keyPressEvent ev w =
    if String.eqb (key_text ev) "-" then handled undo
    else if String.eqb (key_text ev) "+" || String.eqb (key_text ev) "="
    then handled (scaleHistory 1)
    else if key_key ev =? Key_Backspace then handled (scaleHistory 0)
    else mkResult (Return tt) w [Call QEvent_accept; Call QEvent_ignore].
Proof.
  cbn zeta. unfold keyPressEvent, bind, call. cbn [outcome after effects].
  destruct (String.eqb (key_text ev) "-").
  - destruct (undo w) as [[[]|e] a t]; reflexivity.
  - cbn [str_in]. rewrite orb_false_r.
    destruct (String.eqb (key_text ev) "+" || String.eqb (key_text ev) "=").
    + destruct (scaleHistory 1 w) as [[[]|e] a t]; reflexivity.
    + destruct (key_key ev =? Key_Backspace).
      * destruct (scaleHistory 0 w) as [[[]|e] a t]; reflexivity.
      * reflexivity.
Qed.

(** C9. In [keyPressEvent] a key whose text is "-" triggers [undo]; one
    whose text is "+" or "=" triggers [scaleHistory 1]; failing those, the
    Backspace key triggers [scaleHistory 0]; in these cases the event stays
    accepted.  For every other key the event is left not accepted, no
    history operation is invoked and the widget is as it was. *)
Theorem keyPressEvent_dispatch (w : MultiAxisViewBox) (ev : KeyEvent)
  (flag : bool) :
  let r := keyPressEvent ev w in
  let triggers (m : M unit) :=
    outcome r = outcome (m w)
    /\ after r = after (m w)
    /\ effects r = Call QEvent_accept :: effects (m w)
    /\ accepted flag (effects r) = true in
  (key_text ev = "-"%string -> triggers undo)
  /\ (key_text ev = "+"%string \/ key_text ev = "="%string ->
      triggers (scaleHistory 1))
  /\ (key_key ev = Key_Backspace ->
      key_text ev <> "-"%string ->
      key_text ev <> "+"%string -> key_text ev <> "="%string ->
      triggers (scaleHistory 0))
  /\ (key_key ev <> Key_Backspace ->
      key_text ev <> "-"%string ->
      key_text ev <> "+"%string -> key_text ev <> "="%string ->
      r = mkResult (Return tt) w [Call QEvent_accept; Call QEvent_ignore]
      /\ accepted flag (effects r) = false).
Proof.
  intros r triggers. subst r triggers. cbn beta.
  rewrite keyPressEvent_cases. cbn zeta.
  split; [|split; [|split]].
  - intros Ht. rewrite Ht, String.eqb_refl. cbn [outcome after effects].
    repeat split. cbn [accepted]. apply accepted_undo.
  - intros Ht.
    assert (E : String.eqb (key_text ev) "-" = false
                /\ String.eqb (key_text ev) "+"
                   || String.eqb (key_text ev) "=" = true)
      by (destruct Ht as [Ht | Ht]; rewrite Ht; split; reflexivity).
    destruct E as [E1 E2]. rewrite E1, E2. cbn [outcome after effects].
    repeat split. cbn [accepted]. apply accepted_scaleHistory.
  - intros Hk Hm Hp He.
    apply String.eqb_neq in Hm, Hp, He. apply Z.eqb_eq in Hk.
    rewrite Hm, Hp, He, Hk. cbn [orb outcome after effects].
    repeat split. cbn [accepted]. apply accepted_scaleHistory.
  - intros Hk Hm Hp He.
    apply String.eqb_neq in Hm, Hp, He. apply Z.eqb_neq in Hk.
    rewrite Hm, Hp, He, Hk. cbn [orb]. split; reflexivity.
Qed.

(** *** The undo stack along sequences of calls *)

Lemma coalesced_cons2 (a b : Entry) (t : list Entry) :
  coalesced (a :: b :: t)
  = negb (same_spot a (entry_center b) (entry_axis b)) && coalesced (b :: t).
Proof. reflexivity. Qed.

Lemma coalesced_pop (l : list Entry) (x : Entry) :
  coalesced (l ++ [x]) = true -> coalesced l = true.
Proof.
  induction l as [|a t IH]; intros H; [reflexivity|].
  destruct t as [|b t]; [reflexivity|].
  change ((a :: b :: t) ++ [x]) with (a :: b :: (t ++ [x])) in H.
  rewrite coalesced_cons2 in *. apply andb_true_iff in H.
  destruct H as [H1 H2]. rewrite H1. cbn [andb]. apply IH. exact H2.
Qed.

Lemma coalesced_push (l : list Entry) (p e : Entry) :
  coalesced (l ++ [p]) = true ->
  same_spot p (entry_center e) (entry_axis e) = false ->
  coalesced (l ++ [p; e]) = true.
Proof.
  intros H Hs. induction l as [|a t IH].
  - cbn. rewrite Hs. reflexivity.
  - destruct t as [|b t].
    + cbn [app] in *. rewrite coalesced_cons2 in *.
      apply andb_true_iff in H. destruct H as [H1 _]. rewrite H1.
      cbn [andb]. apply IH. reflexivity.
    + change ((a :: b :: t) ++ [p]) with (a :: b :: (t ++ [p])) in H.
      change ((a :: b :: t) ++ [p; e]) with (a :: b :: (t ++ [p; e])).
      rewrite coalesced_cons2 in *. apply andb_true_iff in H.
      destruct H as [H1 H2]. rewrite H1. cbn [andb]. apply IH. exact H2.
Qed.

Section EqualityOfPoints.

(** Equality of points, which the file takes from pyqtgraph, is assumed
    symmetric and transitive here. *)
Hypothesis Point_eq_sym :
  forall p q : Point, Point_eq p q = true -> Point_eq q p = true.
Hypothesis Point_eq_trans :
  forall p q r : Point,
    Point_eq p q = true -> Point_eq q r = true -> Point_eq p r = true.

Lemma same_spot_transfer (a p e : Entry) :
  same_spot p (entry_center e) (entry_axis e) = true ->
  same_spot a (entry_center e) (entry_axis e) = true ->
  same_spot a (entry_center p) (entry_axis p) = true.
Proof.
  unfold same_spot. rewrite !andb_true_iff, !eq_axis_true.
  intros [Hp Ha] [Hp' Ha']. split.
  - apply (Point_eq_trans _ (entry_center e)); [exact Hp'|].
    apply Point_eq_sym. exact Hp.
  - congruence.
Qed.

Lemma coalesced_merge (l : list Entry) (p e : Entry) :
  coalesced (l ++ [p]) = true ->
  same_spot p (entry_center e) (entry_axis e) = true ->
  coalesced (l ++ [e]) = true.
Proof.
  intros H Hs. induction l as [|a t IH]; [reflexivity|].
  destruct t as [|b t].
  - cbn [app] in *. rewrite coalesced_cons2 in *.
    apply andb_true_iff in H. destruct H as [H1 _].
    apply negb_true_iff in H1.
    destruct (same_spot a (entry_center e) (entry_axis e)) eqn:Ha;
      [|reflexivity].
    rewrite (same_spot_transfer a p e Hs Ha) in H1. discriminate.
  - change ((a :: b :: t) ++ [p]) with (a :: b :: (t ++ [p])) in H.
    change ((a :: b :: t) ++ [e]) with (a :: b :: (t ++ [e])).
    rewrite coalesced_cons2 in *. apply andb_true_iff in H.
    destruct H as [H1 H2]. rewrite H1. cbn [andb]. apply IH. exact H2.
Qed.

Lemma coalesced_zoomed (l : list Entry) (factor : float) (center : Point)
  (axis : option Z) :
  coalesced l = true -> coalesced (zoomed l factor center axis) = true.
Proof.
  intros H. unfold zoomed.
  destruct (Py.pop l) as [[rest prev]|] eqn:E; [|reflexivity].
  apply pop_some in E. subst l.
  destruct (same_spot prev center axis) eqn:Hs.
  - apply (coalesced_merge rest prev _ H). exact Hs.
  - apply (coalesced_push rest prev _ H). exact Hs.
Qed.

Lemma wheelEvent_undoStack (w : MultiAxisViewBox) (ev : WheelEvent)
  (axis : option Z) (fromSignal : bool) :
  undoStack (after (wheelEvent ev axis fromSignal w)) = undoStack w
  \/ exists factor center,
       undoStack (after (wheelEvent ev axis fromSignal w))
       = zoomed (undoStack w) factor center axis.
Proof.
  destruct (wheel_center w ev) as [c|e] eqn:Hc.
  - destruct (wheel_factor w ev) as [f|e] eqn:Hf.
    + rewrite (wheelEvent_returns w ev axis fromSignal c f Hc Hf).
      right. exists f, c. reflexivity.
    + rewrite (wheelEvent_no_factor w ev axis fromSignal c e Hc Hf).
      left. reflexivity.
  - rewrite (wheelEvent_no_center w ev axis fromSignal e Hc).
    left. reflexivity.
Qed.

Lemma undo_undoStack (w : MultiAxisViewBox) :
  undoStack (after (undo w)) = undoStack w
  \/ exists e, undoStack w = undoStack (after (undo w)) ++ [e].
Proof.
  destruct (snoc_cases (undoStack w)) as [E | [rest [[[s c] a] E]]].
  - rewrite (undo_nothing_to_pop w E). left. reflexivity.
  - rewrite (undo_top w rest s c a E). cbn zeta. right. exists (s, c, a).
    destruct (raises (base w) _); [exact E|].
    destruct (truediv 1 s); exact E.
Qed.

Lemma scaleHistory_undoStack (w : MultiAxisViewBox) (d : Z) :
  undoStack (after (scaleHistory d w)) = undoStack w.
Proof.
  destruct (axHistory (base w)) as [|r0 h] eqn:E.
  - rewrite (scaleHistory_empty w d E). reflexivity.
  - assert (Hne : axHistory (base w) <> []) by (rewrite E; discriminate).
    rewrite (scaleHistory_nonempty w d Hne). cbn zeta.
    destruct (_ =? -1); [reflexivity|].
    destruct (getitem _ _); reflexivity.
Qed.

Lemma undo_coalesced (w : MultiAxisViewBox) :
  coalesced (undoStack w) = true ->
  coalesced (undoStack (after (undo w))) = true.
Proof.
  intros H. destruct (undo_undoStack w) as [E | [e E]].
  - rewrite E. exact H.
  - rewrite E in H. apply (coalesced_pop _ e H).
Qed.

Lemma step_coalesced (w : MultiAxisViewBox) (c : Step) :
  coalesced (undoStack w) = true ->
  coalesced (undoStack (step w c)) = true.
Proof.
  intros H. destruct c as [ev axis fs | ev axis fs | ev | | d | f];
    cbn [step].
  - destruct (wheelEvent_undoStack w ev axis fs) as [E | [f [c E]]];
      rewrite E; [exact H | apply coalesced_zoomed; exact H].
  - rewrite mouseDragEvent_eq. exact H.
  - rewrite keyPressEvent_cases. cbn zeta.
    destruct (String.eqb (key_text ev) "-");
      [cbn [after]; apply undo_coalesced; exact H|].
    destruct (String.eqb (key_text ev) "+" || String.eqb (key_text ev) "=");
      [cbn [after]; rewrite scaleHistory_undoStack; exact H|].
    destruct (key_key ev =? Key_Backspace);
      [cbn [after]; rewrite scaleHistory_undoStack; exact H | exact H].
  - apply undo_coalesced. exact H.
  - rewrite scaleHistory_undoStack. exact H.
  - exact H.
Qed.

Lemma run_coalesced (cs : list Step) (w : MultiAxisViewBox) :
  coalesced (undoStack w) = true ->
  coalesced (undoStack (run w cs)) = true.
Proof.
  revert w. induction cs as [|c cs IH]; intros w H; [exact H|].
  cbn. apply IH. apply step_coalesced. exact H.
Qed.

End EqualityOfPoints.

Lemma continues_top (axis : option Z) (w w' : MultiAxisViewBox) :
  continues axis w w' ->
  forall rest e, undoStack w = rest ++ [e] ->
  exists e', undoStack w' = rest ++ [e'].
Proof.
  induction 1 as [w | w w1 f ev fs rest1 prev c Hrun IH Etop Hc Hs Hret];
    intros rest e E.
  - exists e. exact E.
  - destruct (IH rest e E) as [e1 E1].
    assert (rest1 = rest /\ prev = e1) as [-> ->].
    { rewrite Etop in E1. apply app_inj_tail in E1. exact E1. }
    destruct (wheel_factor (step w1 (do_framework f)) ev) as [fa|x] eqn:Hf.
    + rewrite (wheelEvent_returns _ ev axis fs c fa Hc Hf).
      cbn [after undoStack step]. unfold zoomed.
      rewrite Etop, pop_snoc, Hs. eexists. reflexivity.
    + rewrite (wheelEvent_no_factor _ ev axis fs c x Hc Hf) in Hret.
      discriminate.
Qed.

Lemma wheelEvent_records (w : MultiAxisViewBox) (ev : WheelEvent)
  (axis : option Z) (fromSignal : bool) (center : Point) (factor : float) :
  wheel_center w ev = Return center ->
  wheel_factor w ev = Return factor ->
  exists rest s,
    undoStack (after (wheelEvent ev axis fromSignal w))
    = rest ++ [(s, center, axis)].
Proof.
  intros Hc Hf.
  rewrite (wheelEvent_returns w ev axis fromSignal center factor Hc Hf).
  cbn [after undoStack]. unfold zoomed.
  destruct (Py.pop (undoStack w)) as [[rest prev]|].
  - destruct (same_spot prev center axis).
    + eexists rest, _. reflexivity.
    + exists (rest ++ [prev]), factor. rewrite <- app_assoc. reflexivity.
  - exists [], factor. reflexivity.
Qed.

(** C10, as the code has it.  Provided equality of points is symmetric
    and transitive: from the initial state, after any sequence of calls of
    [wheelEvent], [mouseDragEvent], [keyPressEvent], [undo] and
    [scaleHistory], with the framework changing its own attributes in
    between, no entry of the undo stack is followed by one with an equal
    center and an equal axis.  Whatever the equality, a run of wheel zooms
    at the same center and axis keeps the stack below the top as it was
    and occupies the single entry on top, and every wheel zoom whose
    center and factor are computed is the top entry afterwards. *)
Theorem undoStack_stays_coalesced :
  ((forall p q : Point, Point_eq p q = true -> Point_eq q p = true) ->
   (forall p q r : Point,
       Point_eq p q = true -> Point_eq q r = true -> Point_eq p r = true) ->
   forall (id : positive) (vb : ViewBox) (cs : list Step),
     coalesced (undoStack (run (init id vb) cs)) = true)
  /\ (forall (axis : option Z) (w w' : MultiAxisViewBox)
             (rest : list Entry) (e : Entry),
         continues axis w w' ->
         undoStack w = rest ++ [e] ->
         exists e', undoStack w' = rest ++ [e'])
  /\ (forall (w : MultiAxisViewBox) (ev : WheelEvent) (axis : option Z)
             (fromSignal : bool) (center : Point) (factor : float),
         wheel_center w ev = Return center ->
         wheel_factor w ev = Return factor ->
         exists rest s,
           undoStack (after (wheelEvent ev axis fromSignal w))
           = rest ++ [(s, center, axis)]).
Proof.
  split; [|split].
  - intros Hsym Htrans id vb cs.
    apply (run_coalesced Hsym Htrans). reflexivity.
  - intros axis w w' rest e Hrun E.
    exact (continues_top axis w w' Hrun rest e E).
  - exact wheelEvent_records.
Qed.

End Properties.

(** ** The properties on the concrete framework *)

Lemma grid_eq_sym (p q : Z * Z) : grid_eq p q = true -> grid_eq q p = true.
Proof.
  unfold grid_eq. rewrite !andb_true_iff, !Z.eqb_eq. intros [H1 H2].
  split; symmetry; assumption.
Qed.

Lemma grid_eq_trans (p q r : Z * Z) :
  grid_eq p q = true -> grid_eq q r = true -> grid_eq p r = true.
Proof.
  unfold grid_eq. rewrite !andb_true_iff, !Z.eqb_eq.
  intros [H1 H2] [H3 H4]. split; congruence.
Qed.

Example notch_center :
  wheel_center zoomed_once notch = Return ((3, 4) : Z * Z).
Proof. reflexivity. Qed.

Example notch_factor_computed :
  wheel_factor zoomed_once notch = Return notch_factor.
Proof. vm_compute. reflexivity. Qed.

Example zoomed_once_stack :
  undoStack zoomed_once = [] ++ [(notch_factor, (3, 4), None)].
Proof. vm_compute. reflexivity. Qed.

(** Calls of [wheelEvent] that raise before the stacks are touched: the
    power overflows, the power underflows to zero, the transform is not
    invertible.  The broadcast has already been emitted. *)
Example wheelEvent_raises_before_update :
  wheelEvent huge_scroll None false zoomed_once
  = mkResult (Raise OverflowError) zoomed_once
      [Emit (sigMouseWheelZoomed 7 huge_scroll None)]
  /\ wheelEvent huge_scroll_back None false zoomed_once
     = mkResult (Raise ZeroDivisionError) zoomed_once
         [Emit (sigMouseWheelZoomed 7 huge_scroll_back None)]
  /\ wheelEvent notch None true collapsed
     = mkResult (Raise (Exception "Transform is not invertible."))
         collapsed [].
Proof. repeat split; vm_compute; reflexivity. Qed.

(** C1 on the grid: a second notch at the same position merges into the
    entry of the first, a notch elsewhere adds an entry. *)
Lemma wheelEvent_coalesces_or_pushes_witness :
  wheel_center zoomed_once notch = Return ((3, 4) : Z * Z)
  /\ wheel_factor zoomed_once notch = Return notch_factor
  /\ undoStack (after (wheelEvent notch None true zoomed_once))
     = [(PrimFloat.mul notch_factor notch_factor, (3, 4), None)]
  /\ List.length (undoStack (after (wheelEvent notch None true zoomed_once)))
     = List.length (undoStack zoomed_once).
Proof.
  split; [exact notch_center|].
  split; [exact notch_factor_computed|].
  exact (proj1 (@wheelEvent_coalesces_or_pushes grid zoomed_once notch None
                  true (3, 4) notch_factor notch_center
                  notch_factor_computed)
           [] notch_factor (3, 4) None zoomed_once_stack eq_refl eq_refl).
Defined.

(** C2 on the grid: a zoom after an undo empties the redo stack. *)
Lemma wheelEvent_clears_redoStack_witness :
  redoStack undone <> []
  /\ outcome (wheelEvent notch (Some YAxis) true undone) = Return tt
  /\ redoStack (after (wheelEvent notch (Some YAxis) true undone)) = [].
Proof.
  assert (H : outcome (wheelEvent notch (Some YAxis) true undone)
              = Return tt) by (vm_compute; reflexivity).
  split; [vm_compute; discriminate|].
  split; [exact H|].
  exact (proj1 (@wheelEvent_clears_redoStack grid undone notch (Some YAxis)
                  true) H).
Defined.

(** C3 fails on a zero scale: [undo] pops the entry, scales the view, then
    raises ZeroDivisionError, and nothing reaches the redo stack.  It
    fails as well on an infinite scale in a view that cannot set a range
    that is not finite: [undo] pops the entry, emits the zoom signal, and
    the exception of [scaleBy] ends it before the redo stack. *)
Lemma undo_zero_scale_raises :
  undoStack zero_top = [(0%float, (3, 4), None)]
  /\ outcome (undo zero_top) = Raise ZeroDivisionError
  /\ undoStack (after (undo zero_top)) = []
  /\ redoStack (after (undo zero_top)) = []
  /\ redoStack (after (undo zero_top))
     <> redoStack zero_top
        ++ [(PrimFloat.div 1%float 0%float, (3, 4), None)]
  /\ undoStack infinite_top = [(PrimFloat.infinity, (3, 4), None)]
  /\ outcome (undo infinite_top) = Raise (Exception "Cannot set range")
  /\ undoStack (after (undo infinite_top)) = []
  /\ redoStack (after (undo infinite_top)) = []
  /\ ~ In (Emit (@sigRangeChangedManually grid [true; true]))
          (effects (undo infinite_top)).
Proof.
  repeat split; try (vm_compute; reflexivity).
  - vm_compute. discriminate.
  - vm_compute. intros H.
    repeat (destruct H as [H | H]; [discriminate|]). exact H.
Qed.

(** A zero scale arises from the initial state: the factors of fast
    scrolls at one position are multiplied into one entry until the
    product underflows. *)
Example zero_scale_reachable :
  undoStack (run (grid_view (-1))
               (repeat (do_wheelEvent fast_scroll None false) 900))
  = [(0%float, (3, 4), None)].
Proof. vm_compute. reflexivity. Qed.

(** C3 on the grid, with a scale that is finite and not zero. *)
Lemma undo_pops_scales_and_records_witness :
  undoStack zoomed_once = [] ++ [(notch_factor, (3, 4), None)]
  /\ PrimFloat.eqb notch_factor 0%float = false
  /\ raises (base zoomed_once)
       (@scaleBy grid [Some notch_factor; Some notch_factor] (3, 4)) = None
  /\ undoStack (after (undo zoomed_once)) = []
  /\ redoStack (after (undo zoomed_once))
     = [(PrimFloat.div 1%float notch_factor, (3, 4), None)]
  /\ In (Call (@scaleBy grid [Some notch_factor; Some notch_factor] (3, 4)))
        (effects (undo zoomed_once)).
Proof.
  assert (Hb : raises (base zoomed_once)
                 (@scaleBy grid [Some notch_factor; Some notch_factor]
                    (3, 4)) = None) by (vm_compute; reflexivity).
  split; [exact zoomed_once_stack|].
  split; [vm_compute; reflexivity|].
  split; [exact Hb|].
  rewrite (@undo_pops_scales_and_records grid zoomed_once [] notch_factor
             (3, 4) None zoomed_once_stack eq_refl Hb).
  cbn [after undoStack redoStack effects].
  split; [reflexivity|]. split; [reflexivity|].
  cbn. tauto.
Defined.

(** C4 on the grid. *)
Lemma undo_empty_is_noop_witness :
  undoStack (grid_view (-1)) = []
  /\ undo (grid_view (-1)) = mkResult (Return tt) (grid_view (-1)) [].
Proof.
  split; [reflexivity|].
  exact (@undo_empty_is_noop grid (grid_view (-1)) eq_refl).
Defined.

(** C5 fails as stated: going back from pointer 0 does not stay at 0 but
    reaches -1 and triggers auto-range, and on an empty history direction
    0 emits the signal and nothing else. *)
Lemma scaleHistory_back_from_zero_and_empty_reset :
  axHistoryPointer (base (after (scaleHistory (-1) (grid_view 0)))) = -1
  /\ effects (scaleHistory (-1) (grid_view 0))
     = [Emit (sigHistoryChanged (-1)); Call enableAutoRange]
  /\ axHistory (base (init 7 grid_base_fresh)) = []
  /\ effects (scaleHistory 0 (init 7 grid_base_fresh))
     = [Emit (sigHistoryChanged 0)]
  /\ ~ In (Call enableAutoRange)
          (effects (scaleHistory 0 (init 7 grid_base_fresh))).
Proof.
  repeat split; try (vm_compute; reflexivity).
  vm_compute. intros [H | []]. discriminate.
Qed.

(** C5 on the grid: forward from the first rectangle to the last, where
    it stays. *)
Lemma scaleHistory_moves_pointer_witness :
  axHistory (base (grid_view 0)) <> []
  /\ -1 <= axHistoryPointer (base (grid_view 0))
        <= len (axHistory (base (grid_view 0))) - 1
  /\ axHistoryPointer (base (after (scaleHistory 1 (grid_view 0)))) = 1
  /\ axHistoryPointer (base (after (scaleHistory 1 (grid_view 1)))) = 1
  /\ scaleHistory 0 (init 7 grid_base_fresh)
     = mkResult (Return tt) (init 7 grid_base_fresh)
         [Emit (sigHistoryChanged 0)].
Proof.
  assert (Hne : forall p, axHistory (base (grid_view p)) <> [])
    by (intros p; cbn; discriminate).
  assert (H0 : -1 <= axHistoryPointer (base (grid_view 0))
               <= len (axHistory (base (grid_view 0))) - 1)
    by (vm_compute; split; discriminate).
  assert (H1 : -1 <= axHistoryPointer (base (grid_view 1))
               <= len (axHistory (base (grid_view 1))) - 1)
    by (vm_compute; split; discriminate).
  split; [exact (Hne 0)|]. split; [exact H0|].
  split; [|split].
  - exact (proj1 (proj2 (proj2 (proj2
             (proj2 (@scaleHistory_moves_pointer grid (grid_view 0) 1)
                (Hne 0) H0)))) eq_refl).
  - exact (proj1 (proj2 (proj2 (proj2
             (proj2 (@scaleHistory_moves_pointer grid (grid_view 1) 1)
                (Hne 1) H1)))) eq_refl).
  - exact (proj1 (@scaleHistory_moves_pointer grid (init 7 grid_base_fresh)
                    0) eq_refl).
Defined.

(** C7 on the grid: a notch in the plot area is broadcast, the same notch
    on a Y axis or coming from a signal is not. *)
Lemma broadcast_iff_local_and_not_y_witness :
  filter is_sigMouseWheelZoomed
    (effects (wheelEvent notch None false (grid_view (-1))))
    = [Emit (sigMouseWheelZoomed 7 notch None)]
  /\ filter is_sigMouseDragged
       (effects (mouseDragEvent drag_end (Some YAxis) false
                   (grid_view (-1)))) = []
  /\ filter is_sigMouseWheelZoomed
       (effects (wheelEvent notch None true (grid_view (-1)))) = [].
Proof.
  pose proof (@broadcast_iff_local_and_not_y grid (grid_view (-1)) notch
                drag_end None false) as [Hyes _].
  pose proof (@broadcast_iff_local_and_not_y grid (grid_view (-1)) notch
                drag_end (Some YAxis) false) as [_ Hy].
  pose proof (@broadcast_iff_local_and_not_y grid (grid_view (-1)) notch
                drag_end None true) as [_ Hsig].
  split; [|split].
  - apply Hyes. split; [reflexivity | discriminate].
  - apply Hy. right. reflexivity.
  - apply Hsig. left. reflexivity.
Defined.

(** C8 fails as stated: the end of a rectangle-select drag with no axis
    that came from a signal does not emit the drag-finished signal. *)
Lemma propagated_drag_end_is_silent :
  drag_isFinish drag_end = true
  /\ state_mouseMode (base (grid_view (-1))) = RectMode
  /\ effects (mouseDragEvent drag_end None true (grid_view (-1)))
     = [Call (ViewBox_mouseDragEvent drag_end None)]
  /\ ~ In (Emit sigMouseDraggedDone)
          (effects (mouseDragEvent drag_end None true (grid_view (-1)))).
Proof.
  repeat split; try (vm_compute; reflexivity).
  vm_compute. intros [H | []]. discriminate.
Qed.

(** C8 on the grid, for a drag that did not come from a signal. *)
Lemma drag_finished_when_not_propagated_witness :
  drag_isFinish drag_end = true
  /\ state_mouseMode (base (grid_view (-1))) = RectMode
  /\ filter is_sigMouseDraggedDone
       (effects (mouseDragEvent drag_end None false (grid_view (-1))))
     = [Emit sigMouseDraggedDone].
Proof.
  split; [reflexivity|]. split; [reflexivity|].
  exact (proj1 (@drag_finished_when_not_propagated grid (grid_view (-1))
                  drag_end) eq_refl eq_refl).
Defined.

(** C9 on the grid: "-" undoes the zoom, "+" and Backspace move in the
    axis history, "a" is left to the framework. *)
Lemma keyPressEvent_dispatch_witness :
  after (keyPressEvent key_minus zoomed_once) = after (undo zoomed_once)
  /\ after (keyPressEvent key_plus (grid_view 0))
     = after (scaleHistory 1 (grid_view 0))
  /\ effects (keyPressEvent key_backspace (grid_view 1))
     = Call QEvent_accept :: effects (scaleHistory 0 (grid_view 1))
  /\ accepted true (effects (keyPressEvent key_a zoomed_once)) = false.
Proof.
  split; [|split; [|split]].
  - exact (proj1 (proj2 (proj1 (@keyPressEvent_dispatch grid zoomed_once
                                  key_minus true) eq_refl))).
  - exact (proj1 (proj2 (proj1 (proj2 (@keyPressEvent_dispatch grid
                                         (grid_view 0) key_plus true))
                           (or_introl eq_refl)))).
  - exact (proj1 (proj2 (proj2
             (proj1 (proj2 (proj2 (@keyPressEvent_dispatch grid
                                     (grid_view 1) key_backspace true)))
                eq_refl ltac:(discriminate) ltac:(discriminate)
                ltac:(discriminate))))).
  - exact (proj2
             (proj2 (proj2 (proj2 (@keyPressEvent_dispatch grid zoomed_once
                                     key_a true)))
                ltac:(discriminate) ltac:(discriminate)
                ltac:(discriminate) ltac:(discriminate))).
Defined.

(** C10 fails as stated when points are compared with a tolerance: after
    three zooms the two entries of the undo stack have equal centers and
    equal axes. *)
Lemma near_centers_end_up_adjacent :
  undoStack (run fuzzy_view three_near_zooms)
  = [(notch_factor, (0%float, 0%float), None);
     (PrimFloat.mul notch_factor notch_factor,
      (0.75e-12%float, 0%float), None)]
  /\ fuzzy_eq (0%float, 0%float) (0.75e-12%float, 0%float) = true
  /\ coalesced (undoStack (run fuzzy_view three_near_zooms)) = false
  /\ fuzzy_eq (0%float, 0%float) (1.5e-12%float, 0%float) = false
  /\ fuzzy_eq (1.5e-12%float, 0%float) (0.75e-12%float, 0%float) = true.
Proof. repeat split; vm_compute; reflexivity. Qed.

(** C10 on the grid, where points are equal when their coordinates are:
    two notches at one position, one elsewhere, an undo, a minus key and a
    third notch at the first position. *)
Lemma undoStack_stays_coalesced_witness :
  coalesced
    (undoStack
       (run (init 7 (grid_base (-1)))
          [do_wheelEvent notch None false;
           do_wheelEvent notch None true;
           do_wheelEvent notch_elsewhere None false;
           do_undo;
           do_keyPressEvent key_minus;
           do_wheelEvent notch None false])) = true.
Proof.
  exact (proj1 (@undoStack_stays_coalesced grid) grid_eq_sym grid_eq_trans
           7%positive (grid_base (-1)) _).
Defined.

(** ** Further properties of the methods *)

Section MoreProperties.

Context {F : Framework}.

Lemma wheel_center_raises (w : MultiAxisViewBox) (ev : WheelEvent)
  (e : exn) :
  wheel_center w ev = Raise e ->
  e = Exception "Transform is not invertible.".
Proof.
  unfold wheel_center.
  destruct (invertQTransform (childGroup_transform (base w)));
    intros H; inversion H. reflexivity.
Qed.

Lemma wheel_factor_raises (w : MultiAxisViewBox) (ev : WheelEvent)
  (e : exn) :
  wheel_factor w ev = Raise e ->
  e = OverflowError \/ e = ZeroDivisionError.
Proof.
  unfold wheel_factor, truediv.
  destruct (float_pow _ _) as [p|].
  - destruct (PrimFloat.eqb p 0); intros H; inversion H. right. reflexivity.
  - intros H. inversion H. left. reflexivity.
Qed.

Lemma zoomed_cases (l : list Entry) (factor : float) (center : Point)
  (axis : option Z) :
  (l = [] /\ zoomed l factor center axis = [(factor, center, axis)])
  \/ (exists rest prev,
         l = rest ++ [prev] /\ same_spot prev center axis = true
         /\ zoomed l factor center axis
            = rest ++ [(PrimFloat.mul factor (entry_scale prev),
                        center, axis)])
  \/ (exists rest prev,
         l = rest ++ [prev] /\ same_spot prev center axis = false
         /\ zoomed l factor center axis = l ++ [(factor, center, axis)]).
Proof.
  destruct (snoc_cases l) as [-> | [rest [prev ->]]].
  - left. split; reflexivity.
  - right. unfold zoomed. rewrite pop_snoc.
    destruct (same_spot prev center axis) eqn:Hs.
    + left. exists rest, prev.
      split; [reflexivity|]. split; [exact Hs | reflexivity].
    + right. exists rest, prev. rewrite <- app_assoc.
      split; [reflexivity|]. split; [exact Hs | reflexivity].
Qed.

(** A call of [wheelEvent] that raises.  Either it raised in computing
    the center or the factor: then it has assigned nothing, the redo stack
    included, it has not called the base class, and the only signal it can
    have emitted is the broadcast of the event.  Or it raised in the
    handler of the base class, with the exception of that handler: then
    the redo stack is already empty and the zoom is already on top of the
    undo stack. *)
Theorem wheelEvent_raises_before_or_after_update (w : MultiAxisViewBox)
  (ev : WheelEvent) (axis : option Z) (fromSignal : bool) (e : exn) :
  let r := wheelEvent ev axis fromSignal w in
  outcome r = Raise e ->
  ((wheel_center w ev = Raise e
    \/ (exists center,
           wheel_center w ev = Return center
           /\ wheel_factor w ev = Raise e
           /\ (e = OverflowError \/ e = ZeroDivisionError)))
   /\ after r = w
   /\ (forall c, ~ In (Call c) (effects r))
   /\ (forall s,
          In (Emit s) (effects r) ->
          s = sigMouseWheelZoomed (self w) ev axis))
  \/ (exists center factor,
         wheel_center w ev = Return center
         /\ wheel_factor w ev = Return factor
         /\ raises (base w) (ViewBox_wheelEvent ev axis) = Some e
         /\ redoStack (after r) = []
         /\ (exists rest s,
                undoStack (after r) = rest ++ [(s, center, axis)])
         /\ In (Call (ViewBox_wheelEvent ev axis)) (effects r)).
Proof.
  cbn zeta. intros H.
  assert (Heff : forall t : list Effect,
             t = (if propagates axis fromSignal
                  then [Emit (sigMouseWheelZoomed (self w) ev axis)]
                  else []) ->
             (forall c, ~ In (Call c) t)
             /\ (forall s, In (Emit s) t ->
                           s = sigMouseWheelZoomed (self w) ev axis)).
  { intros t ->. destruct (propagates axis fromSignal); split.
    - intros c [Hc | []]. discriminate.
    - intros s [Hs | []]. inversion Hs. reflexivity.
    - intros c [].
    - intros s []. }
  destruct (wheel_center w ev) as [c|x] eqn:Hc.
  - destruct (wheel_factor w ev) as [f|x] eqn:Hf.
    + right. exists c, f.
      rewrite (wheelEvent_returns w ev axis fromSignal c f Hc Hf) in *.
      cbn [outcome after effects redoStack undoStack] in *.
      destruct (raises (base w) (ViewBox_wheelEvent ev axis)) as [x|];
        [|discriminate].
      inversion H; subst x.
      split; [reflexivity|]. split; [reflexivity|].
      split; [reflexivity|]. split; [reflexivity|]. split.
      * destruct (zoomed_cases (undoStack w) f c axis)
          as [[_ Z0] | [[rest [prev [_ [_ Z0]]]] | [rest [prev [_ [_ Z0]]]]]];
          rewrite Z0.
        -- exists [], f. reflexivity.
        -- exists rest, (PrimFloat.mul f (entry_scale prev)). reflexivity.
        -- exists (undoStack w), f. reflexivity.
      * apply in_or_app. right. left. reflexivity.
    + left.
      rewrite (wheelEvent_no_factor w ev axis fromSignal c x Hc Hf) in *.
      cbn [outcome after effects] in *. inversion H; subst x.
      split.
      * right. exists c. repeat split; try reflexivity.
        exact (wheel_factor_raises w ev e Hf).
      * split; [reflexivity|]. apply Heff. reflexivity.
  - left. rewrite (wheelEvent_no_center w ev axis fromSignal x Hc) in *.
    cbn [outcome after effects] in *. inversion H; subst x.
    split; [left; reflexivity|].
    split; [reflexivity|]. apply Heff. reflexivity.
Qed.

Lemma undo_of_top (w : MultiAxisViewBox) (rest : list Entry)
  (scale : float) (center : Point) (axis : option Z) :
  undoStack w = rest ++ [(scale, center, axis)] ->
  undoStack (after (undo w)) = rest
  /\ base (after (undo w)) = base w
  /\ self (after (undo w)) = self w
  /\ In (Emit (zoomSignal (self w) scale center axis)) (effects (undo w))
  /\ In (Call (scaleBy [Some scale; Some scale] center))
        (effects (undo w)).
Proof.
  intros E. rewrite (undo_top w rest scale center axis E). cbn zeta.
  destruct (raises (base w) _); [cbn; repeat split; tauto|].
  destruct (truediv 1 scale); cbn; repeat split; tauto.
Qed.

(** Undo after a zoom.  When the zoom was pushed as a new entry, [undo]
    gives back the undo stack as it was before the zoom; when the zoom was
    merged into the top entry, [undo] removes that entry whole, with the
    zooms merged into it before.  In both cases [undo] emits the zoom
    signal and scales the view around the center and for the axis of the
    zoom, and this holds also when [undo] raises. *)
Theorem undo_after_zoom (w : MultiAxisViewBox) (ev : WheelEvent)
  (axis : option Z) (fromSignal : bool) (center : Point) (factor : float) :
  wheel_center w ev = Return center ->
  wheel_factor w ev = Return factor ->
  let w1 := after (wheelEvent ev axis fromSignal w) in
  let w2 := after (undo w1) in
  (exists s,
      In (Emit (zoomSignal (self w) s center axis)) (effects (undo w1))
      /\ In (Call (scaleBy [Some s; Some s] center)) (effects (undo w1)))
  /\ (undoStack w = []
      \/ (exists rest prev,
             undoStack w = rest ++ [prev]
             /\ same_spot prev center axis = false) ->
      undoStack w2 = undoStack w)
  /\ (forall rest prev,
         undoStack w = rest ++ [prev] ->
         same_spot prev center axis = true ->
         undoStack w2 = rest).
Proof.
  intros Hc Hf w1 w2. subst w2 w1.
  rewrite (wheelEvent_returns w ev axis fromSignal center factor Hc Hf).
  cbn [after].
  set (w1 := {| self := self w;
                undoStack := zoomed (undoStack w) factor center axis;
                redoStack := []; base := base w |}).
  destruct (zoomed_cases (undoStack w) factor center axis)
    as [[E Z0] | [[rest [prev [E [Hs Z0]]]] | [rest [prev [E [Hs Z0]]]]]].
  - destruct (undo_of_top w1 [] factor center axis Z0)
      as [U [B [_ [S1 S2]]]].
    split; [exists factor; split; assumption|]. split.
    + intros _. rewrite U, E. reflexivity.
    + intros rest prev E'. rewrite E in E'. destruct rest; discriminate.
  - destruct (undo_of_top w1 rest _ center axis Z0) as [U [B [_ [S1 S2]]]].
    split; [eexists; split; eassumption|]. split.
    + intros [E' | [rest' [prev' [E' Hs']]]].
      * rewrite E in E'. destruct rest; discriminate.
      * rewrite E in E'. apply app_inj_tail in E'. destruct E' as [_ ->].
        congruence.
    + intros rest' prev' E' _. rewrite E in E'.
      apply app_inj_tail in E'. destruct E' as [<- _]. exact U.
  - destruct (undo_of_top w1 (undoStack w) factor center axis Z0)
      as [U [B [_ [S1 S2]]]].
    split; [exists factor; split; assumption|]. split.
    + intros _. exact U.
    + intros rest' prev' E' Hs'. rewrite E in E'.
      apply app_inj_tail in E'. destruct E' as [_ ->]. congruence.
Qed.



Lemma wheelEvent_frame (w : MultiAxisViewBox) (ev : WheelEvent)
  (axis : option Z) (fromSignal : bool) :
  base (after (wheelEvent ev axis fromSignal w)) = base w
  /\ self (after (wheelEvent ev axis fromSignal w)) = self w.
Proof.
  destruct (wheel_center w ev) as [c|x] eqn:Hc.
  - destruct (wheel_factor w ev) as [f|x] eqn:Hf.
    + rewrite (wheelEvent_returns w ev axis fromSignal c f Hc Hf).
      split; reflexivity.
    + rewrite (wheelEvent_no_factor w ev axis fromSignal c x Hc Hf).
      split; reflexivity.
  - rewrite (wheelEvent_no_center w ev axis fromSignal x Hc).
    split; reflexivity.
Qed.

Lemma undo_frame (w : MultiAxisViewBox) :
  base (after (undo w)) = base w /\ self (after (undo w)) = self w.
Proof.
  destruct (snoc_cases (undoStack w)) as [E | [rest [[[s c] a] E]]].
  - rewrite (undo_nothing_to_pop w E). split; reflexivity.
  - destruct (undo_of_top w rest s c a E) as [_ [B [S _]]].
    split; assumption.
Qed.

Lemma scaleHistory_frame (w : MultiAxisViewBox) (d : Z) :
  let w' := after (scaleHistory d w) in
  self w' = self w
  /\ undoStack w' = undoStack w
  /\ redoStack w' = redoStack w
  /\ axHistory (base w') = axHistory (base w)
  /\ state_wheelScaleFactor (base w') = state_wheelScaleFactor (base w)
  /\ state_mouseMode (base w') = state_mouseMode (base w)
  /\ childGroup_transform (base w') = childGroup_transform (base w)
  /\ axHistoryPointer (base w')
     = match axHistory (base w) with
       | [] => axHistoryPointer (base w)
       | _ :: _ => next_pointer d (axHistoryPointer (base w))
                     (len (axHistory (base w)))
       end.
Proof.
  cbn zeta. destruct (axHistory (base w)) as [|r0 h] eqn:E.
  - rewrite (scaleHistory_empty w d E). cbn [after]. rewrite E.
    repeat split; reflexivity.
  - assert (Hne : axHistory (base w) <> []) by (rewrite E; discriminate).
    rewrite (scaleHistory_nonempty w d Hne). cbn zeta. rewrite E.
    destruct (_ =? -1); [cbn; rewrite E; repeat split; reflexivity|].
    destruct (getitem _ _); cbn; rewrite E; repeat split; reflexivity.
Qed.

(** The two histories are independent.  [wheelEvent] and [undo] assign
    nothing of the base class, so neither the axis history nor its pointer;
    [mouseDragEvent] assigns nothing at all; [scaleHistory] assigns the
    pointer only, so neither stack of zooms; and no method changes the
    identity of the widget.  This holds also for calls that raise. *)
Theorem histories_are_independent (w : MultiAxisViewBox) :
  (forall ev axis fromSignal,
      base (after (wheelEvent ev axis fromSignal w)) = base w
      /\ self (after (wheelEvent ev axis fromSignal w)) = self w)
  /\ (base (after (undo w)) = base w /\ self (after (undo w)) = self w)
  /\ (forall ev axis fromSignal,
         after (mouseDragEvent ev axis fromSignal w) = w)
  /\ (forall d,
         self (after (scaleHistory d w)) = self w
         /\ undoStack (after (scaleHistory d w)) = undoStack w
         /\ redoStack (after (scaleHistory d w)) = redoStack w
         /\ axHistory (base (after (scaleHistory d w)))
            = axHistory (base w)).
Proof.
  split; [|split; [|split]].
  - intros ev axis fs. apply wheelEvent_frame.
  - apply undo_frame.
  - intros ev axis fs. rewrite mouseDragEvent_eq. reflexivity.
  - intros d. pose proof (scaleHistory_frame w d) as H. cbn zeta in H.
    tauto.
Qed.


Lemma len_pos {A : Type} (l : list A) : l <> [] -> 0 < len l.
Proof.
  destruct l; [contradiction|]. intros _. unfold len. cbn [List.length].
  lia.
Qed.







Lemma scaleHistory_after (w : MultiAxisViewBox) (d : Z) :
  axHistory (base w) <> [] ->
  after (scaleHistory d w)
  = set_axHistoryPointer
      (next_pointer d (axHistoryPointer (base w))
         (len (axHistory (base w)))) w.
Proof.
  intros Hne. rewrite (scaleHistory_nonempty w d Hne). cbn zeta.
  destruct (_ =? -1); [reflexivity|].
  destruct (getitem _ _); reflexivity.
Qed.

(** Forward and back in a non-empty axis history.  From a pointer that is
    not on the last rectangle, one step forward and one step back give the
    pointer back; from a pointer that is not -1, so do one step back and
    one step forward.  On the last rectangle forward-then-back ends one
    before it, and at -1 back-then-forward ends on the first rectangle. *)
Theorem scaleHistory_there_and_back (w : MultiAxisViewBox) :
  axHistory (base w) <> [] ->
  pointer_in_range (base w) ->
  let p := axHistoryPointer (base w) in
  let n := len (axHistory (base w)) in
  let fwd_back := after (scaleHistory (-1) (after (scaleHistory 1 w))) in
  let back_fwd := after (scaleHistory 1 (after (scaleHistory (-1) w))) in
  (p <> n - 1 -> axHistoryPointer (base fwd_back) = p)
  /\ (p = n - 1 -> axHistoryPointer (base fwd_back) = n - 2)
  /\ (p <> -1 -> axHistoryPointer (base back_fwd) = p)
  /\ (p = -1 -> axHistoryPointer (base back_fwd) = 0).
Proof.
  intros Hne Hr p n fwd_back back_fwd. subst fwd_back back_fwd.
  unfold pointer_in_range in Hr. fold p n in Hr.
  assert (Hn : 0 < n) by (apply len_pos; exact Hne).
  rewrite (scaleHistory_after w 1 Hne), (scaleHistory_after w (-1) Hne).
  fold p n.
  assert (Hne' : forall q, axHistory (base (set_axHistoryPointer q w)) <> [])
    by (intros q; exact Hne).
  rewrite !scaleHistory_after by apply Hne'.
  cbn [set_axHistoryPointer base axHistoryPointer axHistory].
  fold n.
  assert (Hnp : forall q,
                 (q = -1 -> next_pointer (-1) q n = -1)
                 /\ (q <> -1 -> next_pointer (-1) q n = q - 1)
                 /\ (q = n - 1 -> next_pointer 1 q n = q)
                 /\ (q <> n - 1 -> next_pointer 1 q n = q + 1)).
  { intros q. unfold next_pointer. cbn [Z.eqb andb negb].
    destruct (q =? -1) eqn:Q1; destruct (q =? n - 1) eqn:Q2; cbn;
      rewrite ?Z.eqb_eq, ?Z.eqb_neq in *; repeat split; intros; lia. }
  repeat split; intros Hp.
  - rewrite (proj2 (proj2 (proj2 (Hnp p))) Hp).
    rewrite (proj1 (proj2 (Hnp (p + 1)))) by lia. lia.
  - rewrite (proj1 (proj2 (proj2 (Hnp p))) Hp).
    rewrite (proj1 (proj2 (Hnp p))) by lia. lia.
  - rewrite (proj1 (proj2 (Hnp p)) Hp).
    rewrite (proj2 (proj2 (proj2 (Hnp (p - 1))))) by lia. lia.
  - rewrite (proj1 (Hnp p) Hp).
    rewrite (proj2 (proj2 (proj2 (Hnp (-1))))) by lia. lia.
Qed.



(** Views in lock-step.  Two widgets with the same undo stack and the
    same base attributes that handle the same wheel event on the same
    axis, one from the user and one from the signal, end with the same
    outcome, the same undo stack and the same base attributes; when the
    call returns both redo stacks are empty. *)
Theorem wheelEvent_same_on_siblings (w1 w2 : MultiAxisViewBox)
  (ev : WheelEvent) (axis : option Z) (fs1 fs2 : bool) :
  undoStack w1 = undoStack w2 ->
  base w1 = base w2 ->
  let r1 := wheelEvent ev axis fs1 w1 in
  let r2 := wheelEvent ev axis fs2 w2 in
  outcome r1 = outcome r2
  /\ undoStack (after r1) = undoStack (after r2)
  /\ base (after r1) = base (after r2)
  /\ (outcome r1 = Return tt ->
      redoStack (after r1) = [] /\ redoStack (after r2) = []).
Proof.
  intros Hu Hb. cbn zeta.
  assert (Hc : wheel_center w1 ev = wheel_center w2 ev)
    by (unfold wheel_center; rewrite Hb; reflexivity).
  assert (Hf : wheel_factor w1 ev = wheel_factor w2 ev)
    by (unfold wheel_factor; rewrite Hb; reflexivity).
  destruct (wheel_center w1 ev) as [c|x] eqn:Hc1; symmetry in Hc.
  - destruct (wheel_factor w1 ev) as [f|x] eqn:Hf1; symmetry in Hf.
    + rewrite (wheelEvent_returns w1 ev axis fs1 c f Hc1 Hf1).
      rewrite (wheelEvent_returns w2 ev axis fs2 c f Hc Hf).
      cbn [outcome after undoStack redoStack base]. rewrite Hu, Hb.
      repeat split; reflexivity.
    + rewrite (wheelEvent_no_factor w1 ev axis fs1 c x Hc1 Hf1).
      rewrite (wheelEvent_no_factor w2 ev axis fs2 c x Hc Hf).
      cbn [outcome after]. repeat split; try assumption. discriminate.
      discriminate.
  - rewrite (wheelEvent_no_center w1 ev axis fs1 x Hc1).
    rewrite (wheelEvent_no_center w2 ev axis fs2 x Hc).
    cbn [outcome after]. repeat split; try assumption. discriminate.
    discriminate.
Qed.

(** When [undo] raises.  It raises exactly when the undo stack has a top
    entry and either the base class's [scaleBy] raises for its scale and
    center, and then [undo] raises that exception, or [scaleBy] returns
    and the scale is zero, and then [undo] raises ZeroDivisionError.  In
    both cases the entry is gone from the undo stack and the redo stack is
    as it was. *)
Theorem undo_raises_iff (w : MultiAxisViewBox) (e : exn) :
  (outcome (undo w) = Raise e
   <-> exists rest s c a,
         undoStack w = rest ++ [(s, c, a)]
         /\ (raises (base w) (scaleBy [Some s; Some s] c) = Some e
             \/ (raises (base w) (scaleBy [Some s; Some s] c) = None
                 /\ PrimFloat.eqb s 0%float = true
                 /\ e = ZeroDivisionError)))
  /\ (outcome (undo w) = Raise e ->
      redoStack (after (undo w)) = redoStack w
      /\ exists x, undoStack w = undoStack (after (undo w)) ++ [x]).
Proof.
  destruct (snoc_cases (undoStack w)) as [E | [rest [[[s c] a] E]]].
  - rewrite (undo_nothing_to_pop w E). cbn [outcome after].
    split; [|discriminate].
    split; [discriminate|]. intros [rest [s [c [a [E' _]]]]].
    rewrite E in E'. destruct rest; discriminate.
  - rewrite (undo_top w rest s c a E). cbn zeta. unfold truediv.
    assert (Hinj : forall rest' s' c' a',
               undoStack w = rest' ++ [(s', c', a')] ->
               s' = s /\ c' = c).
    { intros rest' s' c' a' E'. rewrite E in E'.
      apply app_inj_tail in E'. destruct E' as [_ E'].
      inversion E'. split; reflexivity. }
    destruct (raises (base w) (scaleBy [Some s; Some s] c)) as [x|] eqn:R;
      [|destruct (PrimFloat.eqb s 0) eqn:Z0];
      cbn [outcome after redoStack undoStack].
    + split; [split|].
      * intros H. inversion H; subst x. exists rest, s, c, a.
        split; [exact E | left; exact R].
      * intros [rest' [s' [c' [a' [E' H]]]]].
        destruct (Hinj _ _ _ _ E') as [-> ->].
        destruct H as [H | [H _]]; congruence.
      * intros _. split; [reflexivity|]. exists (s, c, a). exact E.
    + split; [split|].
      * intros H. inversion H; subst e. exists rest, s, c, a.
        split; [exact E|]. right. repeat split; assumption.
      * intros [rest' [s' [c' [a' [E' H]]]]].
        destruct (Hinj _ _ _ _ E') as [-> ->].
        destruct H as [H | [_ [_ ->]]]; [congruence | reflexivity].
      * intros _. split; [reflexivity|]. exists (s, c, a). exact E.
    + split; [|discriminate]. split; [discriminate|].
      intros [rest' [s' [c' [a' [E' H]]]]].
      destruct (Hinj _ _ _ _ E') as [-> ->].
      destruct H as [H | [_ [H _]]]; congruence.
Qed.


(** Zooms at one spot in a row.  Along a run of wheel zooms on one axis
    that each merge into the top entry of the undo stack, the framework
    changing its attributes in between, the stack below the top stays and
    the factor of the top entry becomes the product of the factors of the
    zooms with the factor it had, each new factor multiplied from the
    left; the entry carries the center of the last zoom, and the redo
    stack is empty once one zoom was made. *)
Theorem zooms_at_one_spot_multiply (axis : option Z)
  (w w' : MultiAxisViewBox) (factors : list float) :
  zoom_run axis w factors w' ->
  forall (rest : list Entry) (acc : float) (c : Point) (a : option Z),
    undoStack w = rest ++ [(acc, c, a)] ->
    (exists c' a',
        undoStack w' = rest ++ [(merged_factor acc factors, c', a')])
    /\ (factors <> [] -> redoStack w' = []).
Proof.
  induction 1 as [w | w f ev fs c1 factor factors w' Hc Hf Hs Hrun IH];
    intros rest acc c a E.
  - split; [exists c, a; exact E | intros H; contradiction].
  - set (v := step w (do_framework f)) in *.
    assert (Ev : undoStack v = rest ++ [(acc, c, a)]) by exact E.
    destruct Hs as [rest1 [prev [E1 Hs]]].
    assert (rest1 = rest /\ prev = (acc, c, a)) as [-> ->].
    { change (undoStack v) with (undoStack w) in E1. rewrite E in E1.
      apply app_inj_tail in E1. destruct E1; split; congruence. }
    assert (Ez : undoStack (after (wheelEvent ev axis fs v))
                 = rest ++ [(PrimFloat.mul factor acc, c1, axis)]
                 /\ redoStack (after (wheelEvent ev axis fs v)) = []).
    { rewrite (wheelEvent_returns v ev axis fs c1 factor Hc Hf).
      cbn [after undoStack redoStack]. unfold zoomed.
      rewrite Ev, pop_snoc, Hs. split; reflexivity. }
    destruct Ez as [Ez Er].
    destruct (IH rest _ c1 axis Ez) as [[c' [a' Hu]] Hr].
    split; [exists c', a'; exact Hu|].
    intros _. destruct factors as [|g gs].
    + inversion Hrun; subst. exact Er.
    + apply Hr. discriminate.
Qed.

End MoreProperties.

(** ** The further properties on the concrete framework *)

Example grid_notch_center :
  wheel_center (grid_view (-1)) notch = Return ((3, 4) : Z * Z).
Proof. reflexivity. Qed.

Example grid_notch_factor :
  wheel_factor (grid_view (-1)) notch = Return notch_factor.
Proof. vm_compute. reflexivity. Qed.

Example grid_fast_factor :
  wheel_factor (grid_view (-1)) fast_scroll = Return fast_factor.
Proof. vm_compute. reflexivity. Qed.


Example notch_factor_not_zero : PrimFloat.eqb notch_factor 0%float = false.
Proof. vm_compute. reflexivity. Qed.

(** An overflowing scroll after an undo keeps the redo stack; a notch in
    a view whose base handler raises has emptied it. *)
Lemma wheelEvent_raises_before_or_after_update_witness :
  outcome (wheelEvent huge_scroll None false undone) = Raise OverflowError
  /\ redoStack undone <> []
  /\ after (wheelEvent huge_scroll None false undone) = undone
  /\ redoStack stuck <> []
  /\ outcome (wheelEvent notch None false stuck)
     = Raise (Exception "Cannot set range")
  /\ redoStack (after (wheelEvent notch None false stuck)) = [].
Proof.
  assert (H : outcome (wheelEvent huge_scroll None false undone)
              = Raise OverflowError) by (vm_compute; reflexivity).
  assert (K : outcome (wheelEvent notch None false stuck)
              = Raise (Exception "Cannot set range"))
    by (vm_compute; reflexivity).
  split; [exact H|]. split; [vm_compute; discriminate|].
  pose proof (@wheelEvent_raises_before_or_after_update grid undone
                huge_scroll None false OverflowError) as T.
  pose proof (@wheelEvent_raises_before_or_after_update grid stuck
                notch None false (Exception "Cannot set range")) as U.
  cbv zeta in T, U. split; [|split; [vm_compute; discriminate|split]].
  - destruct (T H) as [[_ [A _]] | [c [f [_ [_ [R _]]]]]]; [exact A|].
    vm_compute in R. discriminate.
  - exact K.
  - destruct (U K) as [[[C | [c [_ [C _]]]] _] | [c [f [_ [_ [_ [R _]]]]]]].
    + vm_compute in C. discriminate.
    + vm_compute in C. discriminate.
    + exact R.
Defined.

(** A first zoom and its undo on the grid. *)
Lemma undo_after_zoom_witness :
  wheel_center (grid_view (-1)) notch = Return ((3, 4) : Z * Z)
  /\ wheel_factor (grid_view (-1)) notch = Return notch_factor
  /\ undoStack (after (undo (after (wheelEvent notch None false
                                      (grid_view (-1))))))
     = undoStack (grid_view (-1)).
Proof.
  split; [exact grid_notch_center|]. split; [exact grid_notch_factor|].
  pose proof (@undo_after_zoom grid (grid_view (-1)) notch None false
                (3, 4) notch_factor grid_notch_center grid_notch_factor)
    as H.
  cbv zeta in H. destruct H as [_ [H _]].
  apply H. left. reflexivity.
Defined.




(** Forward and back from the first rectangle. *)
Lemma scaleHistory_there_and_back_witness :
  axHistory (base (grid_view 0)) <> []
  /\ pointer_in_range (base (grid_view 0))
  /\ axHistoryPointer
       (base (after (scaleHistory (-1)
                       (after (scaleHistory 1 (grid_view 0))))))
     = axHistoryPointer (base (grid_view 0)).
Proof.
  assert (Hne : axHistory (base (grid_view 0)) <> [])
    by (cbn; discriminate).
  assert (H : pointer_in_range (base (grid_view 0)))
    by (unfold pointer_in_range; vm_compute; split; discriminate).
  split; [exact Hne|]. split; [exact H|].
  pose proof (@scaleHistory_there_and_back grid (grid_view 0) Hne H) as T.
  cbv zeta in T. destruct T as [T _]. apply T.
  vm_compute. discriminate.
Defined.



(** The same second notch on a view and on its sibling. *)
Lemma wheelEvent_same_on_siblings_witness :
  undoStack zoomed_once = undoStack sibling_once
  /\ base zoomed_once = base sibling_once
  /\ undoStack (after (wheelEvent notch None false zoomed_once))
     = undoStack (after (wheelEvent notch None true sibling_once)).
Proof.
  assert (Hu : undoStack zoomed_once = undoStack sibling_once)
    by (vm_compute; reflexivity).
  assert (Hb : base zoomed_once = base sibling_once)
    by (vm_compute; reflexivity).
  split; [exact Hu|]. split; [exact Hb|].
  pose proof (@wheelEvent_same_on_siblings grid zoomed_once sibling_once
                notch None false true Hu Hb) as H.
  cbv zeta in H. destruct H as [_ [H _]]. exact H.
Defined.

(** Undo on a zero scale and on an infinite scale. *)
Lemma undo_raises_iff_witness :
  outcome (undo zero_top) = Raise ZeroDivisionError
  /\ outcome (undo infinite_top) = Raise (Exception "Cannot set range").
Proof.
  pose proof (@undo_raises_iff grid zero_top ZeroDivisionError)
    as [[_ H] _].
  pose proof (@undo_raises_iff grid infinite_top
                (Exception "Cannot set range")) as [[_ K] _].
  split.
  - apply H. exists [], 0%float, (3, 4), None. split; [reflexivity|].
    right. repeat split; vm_compute; reflexivity.
  - apply K. exists [], PrimFloat.infinity, (3, 4), None.
    split; [reflexivity|]. left. vm_compute. reflexivity.
Defined.


(** A second notch and a fast scroll merged into the entry of a first
    notch. *)
Lemma zooms_at_one_spot_multiply_witness :
  zoom_run None zoomed_once [notch_factor; fast_factor]
    (run zoomed_once
       [do_wheelEvent notch None true;
        do_wheelEvent fast_scroll None false])
  /\ undoStack zoomed_once = [] ++ [notch_entry]
  /\ exists c a,
       undoStack
         (run zoomed_once
            [do_wheelEvent notch None true;
             do_wheelEvent fast_scroll None false])
       = [] ++ [(merged_factor notch_factor [notch_factor; fast_factor],
                 c, a)].
Proof.
  assert (R : zoom_run None zoomed_once [notch_factor; fast_factor]
                (run zoomed_once
                   [do_wheelEvent notch None true;
                    do_wheelEvent fast_scroll None false])).
  { apply (@zoom_run_zoom grid None zoomed_once (fun vb => vb) notch true
             (3, 4) notch_factor).
    - reflexivity.
    - vm_compute. reflexivity.
    - exists [], notch_entry. split; vm_compute; reflexivity.
    - apply (@zoom_run_zoom grid None _ (fun vb => vb) fast_scroll false
               (3, 4) fast_factor).
      + reflexivity.
      + vm_compute. reflexivity.
      + eexists [], _. split; vm_compute; reflexivity.
      + apply zoom_run_done. }
  split; [exact R|]. split; [exact zoomed_once_stack|].
  exact (proj1 (@zooms_at_one_spot_multiply grid None _ _ _ R []
                  notch_factor (3, 4) None zoomed_once_stack)).
Defined.
